(** * Health insights: series normalisation, load lifecycle, chart projection
      and report export

    A shallow embedding of
      - [frontend/src/pages/patient/HealthInsights.tsx]  (the insights page),
      - the zustand store [useHealthInsightsStore],
      - the legacy card [HealthInsightsCard],
    followed by the properties the specification states about them.

    Part I holds the definitions, Part II the lemmas and theorems. *)

From Stdlib Require Import ZArith List String Ascii Bool Lia.
From Stdlib Require Import Sorting.Sorted Sorting.Permutation.
From stdpp Require Import base gmap strings list pretty.
Import ListNotations.

Local Open Scope string_scope.

(* ===================================================================== *)
(** * Part I.  Definitions                                                *)
(* ===================================================================== *)

(** ** 1. Data model (the interfaces of [useHealthInsightsStore]) *)

(** A field of a metric record is [string | number | null | undefined].
    [undefined] is the absent key, so a field read is an [option JsValue].
    Readings are only carried around by this code, never computed on.
    [JsObject] is whatever else a read can come back with, an object or a
    function, given by the text a template literal makes of it; such a
    value is never [null] and always truthy. *)
Inductive JsValue : Type :=
  | JsNull
  | JsNumber (n : Z)
  | JsString (s : string)
  | JsObject (text : string).

#[global] Instance JsValue_eq_dec : EqDecision JsValue.
Proof. solve_decision. Defined.

(** [interface MetricData { date: string; [key: string]: ... }] *)
Record MetricData : Type := mkMetric {
  date : string;
  readings : gmap string JsValue
}.

#[global] Instance MetricData_eq_dec : EqDecision MetricData.
Proof. solve_decision. Defined.

(** The properties every plain object inherits from [Object.prototype]. *)
Definition Object_prototype : list string :=
  [ "constructor"; "__defineGetter__"; "__defineSetter__"; "hasOwnProperty";
    "__lookupGetter__"; "__lookupSetter__"; "isPrototypeOf";
    "propertyIsEnumerable"; "toString"; "valueOf"; "__proto__";
    "toLocaleString" ].

Definition inherited (key : string) : bool :=
  existsb (String.eqb key) Object_prototype.

(** What a record inherits under such a key: the prototype itself, the
    [Object] constructor, or a native method. *)
Definition prototype_value (key : string) : JsValue :=
  if String.eqb key "__proto__" then JsObject "[object Object]"
  else if String.eqb key "constructor" then
    JsObject "function Object() { [native code] }"
  else JsObject ("function " +:+ key +:+ "() { [native code] }").

(** The record's own fields: the declared [date] and the open fields the
    payload carries. *)
Definition own_field (m : MetricData) (key : string) : option JsValue :=
  if String.eqb key "date" then Some (JsString (date m))
  else readings m !! key.

(** [m[key]]: an own field, or else what the record inherits.  The
    records come out of [response.json()]; they are plain objects. *)
Definition field (m : MetricData) (key : string) : option JsValue :=
  match own_field m key with
  | Some v => Some v
  | None => if inherited key then Some (prototype_value key) else None
  end.

(** [v != null]: loose inequality, false for [null] and for [undefined]. *)
Definition not_nullish (v : option JsValue) : bool :=
  match v with
  | None | Some JsNull => false
  | Some _ => true
  end.

Record HealthProfile : Type := mkProfile {
  weight : option string;
  height : option string;
  age : option string;
  blood_group : option string;
  allergies : option (list string)
}.

Record HealthData : Type := mkHealthData {
  summary : string;
  profile : option HealthProfile;
  available_metrics : option (list string);
  metrics : list MetricData;
  tips : list string
}.

(** [{ ...d, metrics: ms }] *)
Definition with_metrics (d : HealthData) (ms : list MetricData) : HealthData :=
  {| summary := summary d;
     profile := profile d;
     available_metrics := available_metrics d;
     metrics := ms;
     tips := tips d |}.

(** [interface HealthInsightsState]: the four fields of the store. *)
Record HealthInsightsState : Type := mkStore {
  data : option HealthData;
  loading : bool;
  error : option string;
  hasLoaded : bool
}.

(** The object handed to [create]. *)
Definition initial_store : HealthInsightsState :=
  {| data := None; loading := false; error := None; hasLoaded := false |}.

(** ** 2. [Array.prototype.sort] with a numeric comparator *)

(** The comparator returns a number; [None] stands for [NaN], which the
    sort treats like [+0].  Only the sign of the result is used, and the
    sort is stable.  Where every date parses, the sorted, stable
    arrangement of an array is unique ([stable_sorted_unique] in Part II),
    so the algorithm the engine picks does not matter; the model is the
    stable insertion sort. *)
Section ArraySort.
Context {A : Type}.
Variable comparefn : A -> A -> option Z.

(** [comparefn x y > 0]: [x] has to come after [y]. *)
Definition after (x y : A) : bool :=
  match comparefn x y with
  | Some v => (0 <? v)%Z
  | None => false
  end.

Fixpoint sort_insert (x : A) (l : list A) : list A :=
  match l with
  | [] => [x]
  | y :: l' => if after x y then y :: sort_insert x l' else x :: y :: l'
  end.

Fixpoint Array_sort (l : list A) : list A :=
  match l with
  | [] => []
  | x :: l' => sort_insert x (Array_sort l')
  end.

(** Two neighbours are not out of order. *)
Definition in_order (x y : A) : Prop := after x y = false.

End ArraySort.

(** ** 3. Text helpers *)

(** [s || fallback] for [s : string | undefined]: the empty string is falsy. *)
Definition or_else (s : option string) (fallback : string) : string :=
  match s with
  | Some (String c r) => String c r
  | Some EmptyString | None => fallback
  end.

(** Truthiness of a [string | null]. *)
Definition truthy (s : option string) : bool :=
  match s with
  | Some (String _ _) => true
  | Some EmptyString | None => false
  end.

(** [s.split('T')[0]] *)
Fixpoint before_T (s : string) : string :=
  match s with
  | EmptyString => EmptyString
  | String c r => if Ascii.eqb c "T" then EmptyString else String c (before_T r)
  end.

(** ** 4. Exceptions, promises and the component's state *)

(** A thrown [Error]; an error without a message has the message [""]. *)
Record Exn : Type := Error { message : string }.

(** What an awaited promise (or a call that may throw) comes back with. *)
Inductive Settled (A : Type) : Type :=
  | Fulfilled (a : A)
  | Rejected (e : Exn).
Arguments Fulfilled {A} a.
Arguments Rejected {A} e.

(** The body of [GET /analyze_health/{patientId}]. *)
Record ApiResult : Type := mkResult {
  success : bool;
  detail : option string;
  result_data : option HealthData
}.

(** A [fetch] response: [response.ok] and what [response.json()] gives. *)
Record Response : Type := mkResponse {
  ok : bool;
  json : Settled ApiResult
}.

(** Everything the two handlers of the page read or write: the store (a
    process-wide singleton), the component's own [useState] cells, and the
    traces of [console.error], [alert] and [pdf.save]. *)
Record Page : Type := mkPage {
  store : HealthInsightsState;
  patientId : option string;
  isDownloading : bool;
  console : list string;
  alerts : list string;
  saved : list string
}.

Definition initial_page : Page :=
  {| store := initial_store; patientId := None; isDownloading := false;
     console := []; alerts := []; saved := [] |}.

Definition update_store (f : HealthInsightsState -> HealthInsightsState)
    (p : Page) : Page :=
  {| store := f (store p); patientId := patientId p;
     isDownloading := isDownloading p; console := console p;
     alerts := alerts p; saved := saved p |}.

(** A computation either completes with a value or throws; the page state
    is threaded through either way. *)
Inductive Completion (A : Type) : Type :=
  | Normal (a : A)
  | Throw (e : Exn).
Arguments Normal {A} a.
Arguments Throw {A} e.

Definition M (A : Type) : Type := Page -> Completion A * Page.

#[global] Instance M_ret : MRet M := fun A a p => (Normal a, p).

#[global] Instance M_bind : MBind M := fun A B f m p =>
  match m p with
  | (Normal a, p') => f a p'
  | (Throw e, p') => (Throw e, p')
  end.

Definition throw {A : Type} (e : Exn) : M A := fun p => (Throw e, p).

Definition read {A : Type} (f : Page -> A) : M A := fun p => (Normal (f p), p).

Definition write (f : Page -> Page) : M unit := fun p => (Normal tt, f p).

(** [await q], or a call that may throw. *)
Definition await {A : Type} (q : Settled A) : M A :=
  match q with
  | Fulfilled a => mret a
  | Rejected e => throw e
  end.

(** [try { body } catch (err) { handler err } finally { cleanup }] *)
Definition try_catch_finally (body : M unit) (handler : Exn -> M unit)
    (cleanup : M unit) : M unit := fun p =>
  let '(c, p1) :=
    match body p with
    | (Normal a, p') => (Normal a, p')
    | (Throw e, p') => handler e p'
    end in
  match cleanup p1 with
  | (Normal _, p2) => (c, p2)
  | (Throw e, p2) => (Throw e, p2)
  end.

Definition exec {A : Type} (m : M A) (p : Page) : Page := snd (m p).

Definition completion {A : Type} (m : M A) (p : Page) : Completion A := fst (m p).

(** The setters of the store: [set({ field })] merges one field. *)
Definition setData (d : option HealthData) : M unit :=
  write (update_store (fun s =>
    {| data := d; loading := loading s; error := error s;
       hasLoaded := hasLoaded s |})).

Definition setLoading (b : bool) : M unit :=
  write (update_store (fun s =>
    {| data := data s; loading := b; error := error s;
       hasLoaded := hasLoaded s |})).

Definition setError (e : option string) : M unit :=
  write (update_store (fun s =>
    {| data := data s; loading := loading s; error := e;
       hasLoaded := hasLoaded s |})).

Definition setHasLoaded (b : bool) : M unit :=
  write (update_store (fun s =>
    {| data := data s; loading := loading s; error := error s;
       hasLoaded := b |})).

(** The component's [useState] setters and the browser's effects. *)
Definition setPatientId (id : option string) : M unit :=
  write (fun p =>
    {| store := store p; patientId := id; isDownloading := isDownloading p;
       console := console p; alerts := alerts p; saved := saved p |}).

Definition setIsDownloading (b : bool) : M unit :=
  write (fun p =>
    {| store := store p; patientId := patientId p; isDownloading := b;
       console := console p; alerts := alerts p; saved := saved p |}).

Definition console_error (line : string) : M unit :=
  write (fun p =>
    {| store := store p; patientId := patientId p;
       isDownloading := isDownloading p; console := console p ++ [line];
       alerts := alerts p; saved := saved p |}).

Definition alert (text : string) : M unit :=
  write (fun p =>
    {| store := store p; patientId := patientId p;
       isDownloading := isDownloading p; console := console p;
       alerts := alerts p ++ [text]; saved := saved p |}).

Definition download (file : string) : M unit :=
  write (fun p =>
    {| store := store p; patientId := patientId p;
       isDownloading := isDownloading p; console := console p;
       alerts := alerts p; saved := saved p ++ [file] |}).

(** ** 5. [generateInsights]: fetch, normalise, store *)

Section Insights.

(** [new Date(s).getTime()]: the time value in milliseconds, [None] for
    [NaN] (a text the engine cannot parse).  Which texts parse is left to
    the engine; [IsoDate.getTime] below is the instance for plain
    [YYYY-MM-DD] dates. *)
Variable getTime : string -> option Z.

(** [(a, b) => new Date(a.date).getTime() - new Date(b.date).getTime()].
    The difference of two time values keeps its sign in double arithmetic,
    and the sort looks at nothing else. *)
Definition by_date (a b : MetricData) : option Z :=
  match getTime (date a), getTime (date b) with
  | Some ta, Some tb => Some (ta - tb)%Z
  | _, _ => None
  end.

(** The callback handed to [filter]. *)
Definition is_valid_metric (keys : option (list string)) (m : MetricData) : bool :=
  match keys with
  | None => true
  | Some ks =>
      if Nat.eqb (length ks) 0 then true
      else existsb (fun key => not_nullish (field m key)) ks
  end.

(** [result.data.metrics.filter(...).sort(...)] *)
Definition validMetrics (d : HealthData) : list MetricData :=
  Array_sort by_date (List.filter (is_valid_metric (available_metrics d)) (metrics d)).

(** The synchronous prefix, up to the first [await]. *)
Definition request : M unit :=
  setLoading true ;;
  setError None.

(** The body of the [try] block, run once the [fetch] has settled.  A
    payload without [data] makes [result.data.metrics] throw. *)
Definition attempt (reply : Settled Response) : M unit :=
  response ← await reply;
  if negb (ok response) then throw (Error "Failed to fetch health insights")
  else
    result ← await (json response);
    if negb (success result) then
      throw (Error (or_else (detail result) "Unknown error"))
    else
      d ← match result_data result with
          | Some d => mret d
          | None => throw (Error "Cannot read properties of undefined (reading 'metrics')")
          end;
      setData (Some (with_metrics d (validMetrics d))) ;;
      setHasLoaded true.

(** The [catch] block. *)
Definition recover (err : Exn) : M unit :=
  console_error (message err) ;;
  setError (Some (or_else (Some (message err)) "Could not load health insights.")).

(** The continuation of [generateInsights] after the [fetch]. *)
Definition settle (reply : Settled Response) : M unit :=
  try_catch_finally (attempt reply) recover (setLoading false).

Definition generateInsights (reply : Settled Response) : M unit :=
  id ← read patientId;
  if negb (truthy id) then mret tt
  else request ;; settle reply.

(** The continuation of [fetchPatient]: [if (patient?.id) setPatientId(...)]. *)
Definition fetchPatient (id : option string) : M unit :=
  if truthy id then setPatientId id else mret tt.

End Insights.

(** ** 6. The session state of the specification, read off the store *)

Inductive SessionState : Type :=
  | Idle
  | Loading
  | Ready (d : HealthData) (series : list MetricData)
  | Empty (d : HealthData)
  | InError (msg : string).

(** The tag follows the guards of the page's cards: the spinner under
    [loading], the failure card under [error], and the report or the
    "not enough data" card by the length of [data.metrics].
    [hasLoaded] is the separate persistent flag. *)
Definition phase (s : HealthInsightsState) : SessionState :=
  if loading s then Loading
  else match error s with
       | Some (String c r) => InError (String c r)
       | Some EmptyString | None =>
           match data s with
           | None => Idle
           | Some d =>
               match metrics d with
               | [] => Empty d
               | _ :: _ => Ready d (metrics d)
               end
           end
       end.

(** The two states a completed load ends in. *)
Definition completed (ph : SessionState) : Prop :=
  match ph with
  | Ready _ _ | Empty _ => True
  | Idle | Loading | InError _ => False
  end.

(** What the [try] block has in hand when it reaches the store: the
    analysis, or the error thrown on the way. *)
Definition fetchAnalysis (reply : Settled Response) : Exn + HealthData :=
  match reply with
  | Rejected e => inl e
  | Fulfilled response =>
      if negb (ok response) then inl (Error "Failed to fetch health insights")
      else match json response with
           | Rejected e => inl e
           | Fulfilled result =>
               if negb (success result) then
                 inl (Error (or_else (detail result) "Unknown error"))
               else match result_data result with
                    | Some d => inr d
                    | None => inl (Error "Cannot read properties of undefined (reading 'metrics')")
                    end
           end
  end.

(** The guards of the five cards, as the JSX writes them. *)
Definition shows_start (s : HealthInsightsState) : bool :=
  negb (hasLoaded s) && negb (loading s) && negb (truthy (error s)).

Definition shows_spinner (s : HealthInsightsState) : bool := loading s.

Definition shows_failure (s : HealthInsightsState) : bool := truthy (error s).

Definition shows_no_data (s : HealthInsightsState) : bool :=
  hasLoaded s && negb (loading s) && negb (truthy (error s)) &&
  match data s with
  | Some d => Nat.eqb (length (metrics d)) 0
  | None => false
  end.

Definition shows_report (s : HealthInsightsState) : bool :=
  hasLoaded s && negb (loading s) && negb (truthy (error s)) &&
  match data s with
  | Some d => Nat.ltb 0 (length (metrics d))
  | None => false
  end.

(** ** 7. The chart: one [Area] per discovered metric *)

Definition DYNAMIC_COLORS : list string :=
  [ "#ef4444"; "#3b82f6"; "#10b981"; "#f59e0b"; "#8b5cf6"; "#ec4899"; "#14b8a6" ].

(** The props of an [<Area>] that differ between series.  A prop that
    is not written is [None] ([key]) or the library default ([connectNulls]
    is [false] unless set). *)
Record AreaProps : Type := mkArea {
  key : option string;
  dataKey : string;
  name : string;
  stroke : option string;
  fill : string;
  connectNulls : bool
}.

(** [DYNAMIC_COLORS[idx % DYNAMIC_COLORS.length]]; an index outside the
    array would read [undefined]. *)
Definition color_at (idx : nat) : option string :=
  DYNAMIC_COLORS !! (idx mod length DYNAMIC_COLORS).

(** The callback of [data.available_metrics.map((metric, idx) => <Area .../>)]. *)
Definition area (idx : nat) (metric : string) : AreaProps :=
  {| key := Some metric;
     dataKey := metric;
     name := metric;
     stroke := color_at idx;
     fill := "url(#color" +:+ pretty idx +:+ ")";
     connectNulls := true |}.

(** [data.available_metrics && data.available_metrics.map(...)]: nothing is
    drawn without the key list. *)
Definition areas (keys : option (list string)) : list AreaProps :=
  match keys with
  | None => []
  | Some ks => imap area ks
  end.

(** The legend pills: the dot's colour and the label. *)
Definition legend (keys : option (list string)) : list (option string * string) :=
  match keys with
  | None => []
  | Some ks => imap (fun idx metric => (color_at idx, metric)) ks
  end.

(** The colour the chart draws a metric in: the stroke of the first
    series with that [dataKey]. *)
Definition color_of (keys : option (list string)) (metric : string) : option string :=
  match List.find (fun a => String.eqb (dataKey a) metric) (areas keys) with
  | Some a => stroke a
  | None => None
  end.

(** The two series of the legacy [HealthInsightsCard]; it has no key list. *)
Definition HealthInsightsCard_areas : list AreaProps :=
  [ {| key := None; dataKey := "systolic_bp"; name := "Systolic BP";
       stroke := Some "#ef4444"; fill := "url(#colorSys)"; connectNulls := false |};
    {| key := None; dataKey := "heart_rate"; name := "Heart Rate";
       stroke := Some "#3b82f6"; fill := "url(#colorHr)"; connectNulls := false |} ].

(** ** 8. [downloadPDF] *)

(** What the libraries do is decided outside this code: every call either
    returns or throws.  The page geometry ([pdfWidth], [pdfHeight]) is
    plain arithmetic on numbers handed on to [addImage]. *)
Record Canvas : Type := mkCanvas {
  toDataURL : Settled string
}.

Record ExportEnv : Type := mkExportEnv {
  reportRef : bool;
  html2canvas : Settled Canvas;
  jsPDF : Settled unit;
  addImage : Settled unit;
  save : Settled unit;
  toISOString : string
}.

Definition report_name (env : ExportEnv) : string :=
  "Health_Insights_Report_" +:+ before_T (toISOString env) +:+ ".pdf".

Definition capture (env : ExportEnv) : M unit :=
  canvas ← await (html2canvas env);
  imgData ← await (toDataURL canvas);
  await (jsPDF env) ;;
  await (addImage env) ;;
  await (save env) ;;
  download (report_name env).

(** The [try] statement of [downloadPDF], run once the capture has
    settled. *)
Definition finish_export (env : ExportEnv) : M unit :=
  try_catch_finally
    (capture env)
    (fun err =>
       console_error ("Failed to generate PDF:" +:+ message err) ;;
       alert "Failed to generate PDF report.")
    (setIsDownloading false).

Definition downloadPDF (env : ExportEnv) : M unit :=
  if negb (reportRef env) then mret tt
  else
    setIsDownloading true ;;
    finish_export env.

(** ** 9. A date parser for plain [YYYY-MM-DD] texts *)

(** The date-only form of the ECMAScript date-time format, read as UTC
    midnight.  Any other text is rejected here. *)
Module IsoDate.

Definition digit (c : ascii) : option Z :=
  let n := Z.of_nat (nat_of_ascii c) in
  if ((48 <=? n) && (n <=? 57))%Z then Some (n - 48)%Z else None.

Fixpoint number (acc : Z) (cs : list ascii) : option Z :=
  match cs with
  | [] => Some acc
  | c :: cs' =>
      match digit c with
      | Some d => number (10 * acc + d)%Z cs'
      | None => None
      end
  end.

Definition is_leap (y : Z) : bool :=
  ((y mod 4 =? 0) && negb (y mod 100 =? 0) || (y mod 400 =? 0))%Z.

Definition days_in_month (y m : Z) : Z :=
  if (m =? 2)%Z then (if is_leap y then 29 else 28)%Z
  else if ((m =? 4) || (m =? 6) || (m =? 9) || (m =? 11))%Z then 30%Z
  else 31%Z.

(** Days from 1970-01-01 to the given civil date. *)
Definition days_from_civil (y m d : Z) : Z :=
  let y' := (if m <=? 2 then y - 1 else y)%Z in
  let era := (y' / 400)%Z in
  let yoe := (y' - era * 400)%Z in
  let mp := ((m + 9) mod 12)%Z in
  let doy := ((153 * mp + 2) / 5 + d - 1)%Z in
  let doe := (yoe * 365 + yoe / 4 - yoe / 100 + doy)%Z in
  (era * 146097 + doe - 719468)%Z.

Definition getTime (s : string) : option Z :=
  match list_ascii_of_string s with
  | [y1; y2; y3; y4; h1; m1; m2; h2; d1; d2] =>
      if Ascii.eqb h1 "-" && Ascii.eqb h2 "-" then
        match number 0 [y1; y2; y3; y4], number 0 [m1; m2], number 0 [d1; d2] with
        | Some y, Some m, Some d =>
            if ((1 <=? m) && (m <=? 12) && (1 <=? d) && (d <=? days_in_month y m))%Z
            then Some (days_from_civil y m d * 86400000)%Z
            else None
        | _, _, _ => None
        end
      else None
  | _ => None
  end.

End IsoDate.

(** ** 10. The event loop *)

Section EventLoop.
Variable getTime : string -> option Z.

(** Handlers run one at a time.  A click may start a new fetch while
    earlier ones are still in flight, and the replies come back in any
    order.  Exports are not counted: their continuation may run at any
    point, which admits more sessions than the page can reach and does no
    harm to an invariant. *)
Inductive Event : Type :=
  | PatientFound (id : option string)
  | ClickGenerate
  | FetchSettled (reply : Settled Response)
  | ClickDownload
  | ExportSettled (env : ExportEnv).

Record Session : Type := mkSession {
  page : Page;
  in_flight : nat
}.

Definition initial_session : Session :=
  {| page := initial_page; in_flight := 0 |}.

Inductive step : Session -> Event -> Session -> Prop :=
  | step_patient s id :
      step s (PatientFound id)
           {| page := exec (fetchPatient id) (page s); in_flight := in_flight s |}
  | step_click s :
      truthy (patientId (page s)) = true ->
      step s ClickGenerate
           {| page := exec request (page s); in_flight := S (in_flight s) |}
  | step_click_disabled s :
      truthy (patientId (page s)) = false ->
      step s ClickGenerate s
  | step_settled s n reply :
      in_flight s = S n ->
      step s (FetchSettled reply)
           {| page := exec (settle getTime reply) (page s); in_flight := n |}
  | step_download s :
      step s ClickDownload
           {| page := exec (setIsDownloading true) (page s);
              in_flight := in_flight s |}
  | step_exported s env :
      step s (ExportSettled env)
           {| page := exec (finish_export env) (page s);
              in_flight := in_flight s |}.

Inductive reachable : Session -> Prop :=
  | reachable_init : reachable initial_session
  | reachable_step s ev s' : reachable s -> step s ev s' -> reachable s'.

End EventLoop.

(** ** 11. The vocabulary of the statements *)

Section Vocabulary.
Variable getTime : string -> option Z.

(** The record's date parses. *)
Definition parses (m : MetricData) : Prop := is_Some (getTime (date m)).

(** [a] is dated no later than [b]; both dates parse. *)
Definition date_le (a b : MetricData) : Prop :=
  match getTime (date a), getTime (date b) with
  | Some ta, Some tb => (ta <= tb)%Z
  | _, _ => False
  end.

(** The records of one instant [t]. *)
Definition dated (t : option Z) (m : MetricData) : bool :=
  bool_decide (getTime (date m) = t).

End Vocabulary.

(** Reading the record under at least one of the keys gives something
    other than [null] and [undefined]. *)
Definition has_reading (ks : list string) (m : MetricData) : Prop :=
  exists k v, In k ks /\ field m k = Some v /\ v <> JsNull.

(** The record as received holds the value [v] under [k]: its date under
    ["date"], or one of the fields of the payload. *)
Definition carries (m : MetricData) (k : string) (v : JsValue) : Prop :=
  (k = "date" /\ v = JsString (date m))
  \/ (k <> "date" /\ readings m !! k = Some v).

(** The record itself carries a reading (neither [null] nor absent)
    under at least one of the keys. *)
Definition has_own_reading (ks : list string) (m : MetricData) : Prop :=
  exists k v, In k ks /\ carries m k v /\ v <> JsNull.

#[global] Instance has_own_reading_dec ks m : Decision (has_own_reading ks m).
Proof.
  assert (Hc : forall k v, own_field m k = Some v <-> carries m k v).
  { intros k v. unfold own_field, carries.
    destruct (String.eqb_spec k "date") as [->|Hne].
    - split; [intros [= <-]; now left|].
      intros [[_ ->]|[Hne _]]; [reflexivity|congruence].
    - split; [intros H; now right|].
      intros [[Heq _]|[_ H]]; [congruence|exact H]. }
  destruct (existsb (fun k => not_nullish (own_field m k)) ks) eqn:E.
  - left. apply existsb_exists in E as (k & Hk & Hv). exists k.
    destruct (own_field m k) as [v|] eqn:F; [|discriminate Hv].
    exists v. split; [exact Hk|]. split; [now apply Hc|].
    intros ->. discriminate Hv.
  - right. intros (k & v & Hk & Hf & Hv).
    assert (T : existsb (fun k => not_nullish (own_field m k)) ks = true).
    { apply existsb_exists. exists k. split; [exact Hk|].
      apply Hc in Hf. rewrite Hf.
      destruct v; [congruence|reflexivity|reflexivity|reflexivity]. }
    rewrite T in E. discriminate E.
Defined.

#[global] Instance has_reading_dec ks m : Decision (has_reading ks m).
Proof.
  destruct (existsb (fun k => not_nullish (field m k)) ks) eqn:E.
  - left. apply existsb_exists in E as (k & Hk & Hv). exists k.
    destruct (field m k) as [[|n|t|o]|]; try discriminate Hv;
      eexists; (split; [exact Hk|split; [reflexivity|discriminate]]).
  - right. intros (k & v & Hk & Hf & Hv).
    assert (T : existsb (fun k => not_nullish (field m k)) ks = true).
    { apply existsb_exists. exists k. split; [exact Hk|].
      rewrite Hf. destruct v; [congruence|reflexivity|reflexivity|reflexivity]. }
    rewrite T in E. discriminate E.
Defined.

(** What holds of every session the event loop can reach: the store holds
    data exactly when a load has completed; with nothing in flight the
    spinner is off; the stored error is never the empty text; and while
    the spinner is on no error is shown. *)
Definition session_inv (s : Session) : Prop :=
  (data (store (page s)) <> None <-> hasLoaded (store (page s)) = true)
  /\ (in_flight s = 0 -> loading (store (page s)) = false)
  /\ error (store (page s)) <> Some ""
  /\ (loading (store (page s)) = true -> error (store (page s)) = None).

(** ** 12. Sample inputs *)

(** The series of the specification's worked example: three readings of
    [hr], one of them an explicit [null]. *)
Definition sample_metrics : list MetricData :=
  [ mkMetric "2024-02-01" {[ "hr" := JsNumber 70 ]};
    mkMetric "2024-01-01" {[ "hr" := JsNull ]};
    mkMetric "2024-01-01" {[ "hr" := JsNumber 72 ]} ].

Definition sample_data (keys : option (list string)) : HealthData :=
  {| summary := "Stable."; profile := None; available_metrics := keys;
     metrics := sample_metrics; tips := ["Keep walking."] |}.

(** A record whose only reading is an explicit [null], under a key list
    that names a method every object inherits. *)
Definition unread_record : MetricData :=
  mkMetric "2024-01-01" {[ "hr" := JsNull ]}.

Definition inherited_key_data : HealthData :=
  {| summary := "Stable."; profile := None;
     available_metrics := Some ["toString"];
     metrics := [unread_record]; tips := [] |}.

(** A page whose patient has been resolved. *)
Definition sample_page : Page :=
  {| store := initial_store; patientId := Some "patient-1";
     isDownloading := false; console := []; alerts := []; saved := [] |}.

(** A reply of the endpoint with the given payload. *)
Definition reply_with (r : ApiResult) : Settled Response :=
  Fulfilled {| ok := true; json := Fulfilled r |}.


(** A successful answer carrying the sample series, an application-level
    failure with a detail text, and one whose detail is the empty text. *)
Definition sample_ok_reply : Settled Response :=
  reply_with {| success := true; detail := None;
                result_data := Some (sample_data (Some ["hr"])) |}.

Definition sample_failed_reply : Settled Response :=
  reply_with {| success := false; detail := Some "No records found";
                result_data := None |}.

Definition sample_empty_detail_reply : Settled Response :=
  reply_with {| success := false; detail := Some ""; result_data := None |}.

(** Eight metric names, and the same names with the first and the last
    exchanged. *)
Definition eight_keys : list string :=
  ["BMI"; "Blood Sugar"; "Cholesterol"; "Diastolic BP";
   "Heart Rate"; "SpO2"; "Systolic BP"; "Weight"].

Definition eight_keys_swapped : list string :=
  ["Weight"; "Blood Sugar"; "Cholesterol"; "Diastolic BP";
   "Heart Rate"; "SpO2"; "Systolic BP"; "BMI"].

(** An export whose capture is rejected, and one that goes through. *)
Definition sample_export_failing : ExportEnv :=
  {| reportRef := true; html2canvas := Rejected (Error "Unable to find element");
     jsPDF := Fulfilled tt; addImage := Fulfilled tt; save := Fulfilled tt;
     toISOString := "2024-03-05T10:15:30.000Z" |}.

Definition sample_export_passing : ExportEnv :=
  {| reportRef := true;
     html2canvas := Fulfilled {| toDataURL := Fulfilled "data:image/png;base64,AAAA" |};
     jsPDF := Fulfilled tt; addImage := Fulfilled tt; save := Fulfilled tt;
     toISOString := "2024-03-05T10:15:30.000Z" |}.

(** ** 13. The six tiles above the chart *)

(** Truthiness of a field read: [undefined], [null], [0] and [""] are
    falsy. *)
Definition js_truthy (v : option JsValue) : bool :=
  match v with
  | None | Some JsNull => false
  | Some (JsNumber n) => negb (n =? 0)%Z
  | Some (JsString EmptyString) => false
  | Some (JsString (String _ _)) => true
  | Some (JsObject _) => true
  end.

(** The text a template literal makes of a value.  Readings are whole
    numbers here, printed in decimal. *)
Definition to_text (v : option JsValue) : string :=
  match v with
  | None => "undefined"
  | Some JsNull => "null"
  | Some (JsNumber n) => pretty n
  | Some (JsString s) => s
  | Some (JsObject text) => text
  end.

(** [data?.metrics && data.metrics.length > 0 ? data.metrics[length - 1] : {}];
    [None] is the object without fields. *)
Definition latestMetric (dt : option HealthData) : option MetricData :=
  match dt with
  | Some d => last (metrics d)
  | None => None
  end.

(** [latestMetric[key]] *)
Definition latest (dt : option HealthData) (key : string) : option JsValue :=
  match latestMetric dt with
  | Some m => field m key
  | None => None
  end.

(** [v || text] for a field read. *)
Definition or_text (v : option JsValue) (text : string) : JsValue :=
  match v with
  | Some x => if js_truthy v then x else JsString text
  | None => JsString text
  end.

Definition uiBP (dt : option HealthData) : string :=
  if js_truthy (latest dt "Systolic BP") && js_truthy (latest dt "Diastolic BP")
  then to_text (latest dt "Systolic BP") +:+ "/" +:+ to_text (latest dt "Diastolic BP")
  else "120/80".

Definition uiSugar (dt : option HealthData) : JsValue :=
  or_text (latest dt "Blood Sugar") "95".

Definition uiHeartRate (dt : option HealthData) : JsValue :=
  or_text (latest dt "Heart Rate") "76".

(** [data?.profile?.f]: any missing link reads [undefined]. *)
Definition profile_field (f : HealthProfile -> option string)
    (dt : option HealthData) : option string :=
  match dt with
  | Some d =>
      match profile d with
      | Some pr => f pr
      | None => None
      end
  | None => None
  end.

Definition uiWeight (dt : option HealthData) : string :=
  or_else (profile_field weight dt) "78 kg".

Definition uiAge (dt : option HealthData) : string :=
  or_else (profile_field age dt) "32 yrs".

Definition uiBloodGrp (dt : option HealthData) : string :=
  or_else (profile_field blood_group dt) "O+".

(** ** 14. The gradients the series are filled with *)

(** [<linearGradient key={`grad-${idx}`} id={`color${idx}`}>] with its
    two stops of one colour. *)
Record Gradient : Type := mkGradient {
  gradient_key : string;
  gradient_id : string;
  stopColor : option string
}.

Definition gradient (idx : nat) (metric : string) : Gradient :=
  {| gradient_key := "grad-" +:+ pretty idx;
     gradient_id := "color" +:+ pretty idx;
     stopColor := color_at idx |}.

Definition gradients (keys : option (list string)) : list Gradient :=
  match keys with
  | None => []
  | Some ks => imap gradient ks
  end.

(** ** 15. The address of the analysis *)

(** [import.meta.env.VITE_API_URL || "http://localhost:8000"] *)
Definition API_BASE_URL (VITE_API_URL : option string) : string :=
  or_else VITE_API_URL "http://localhost:8000".

(** [`${API_BASE_URL}/analyze_health/${patientId}`] *)
Definition analyze_url (VITE_API_URL : option string) (id : string) : string :=
  API_BASE_URL VITE_API_URL +:+ "/analyze_health/" +:+ id.

(** ** 16. Leaving the page and coming back *)

(** The store lives outside the component; the [useState] cells start
    afresh when the page is mounted again. *)
Definition remount (p : Page) : Page :=
  {| store := store p; patientId := None; isDownloading := false;
     console := console p; alerts := alerts p; saved := saved p |}.

Section Navigation.
Variable getTime : string -> option Z.

(** The sessions reached by the events of the page and by navigation;
    fetches in flight outlive the component that started them. *)
Inductive visited : Session -> Prop :=
  | visited_init : visited initial_session
  | visited_step s ev s' : visited s -> step getTime s ev s' -> visited s'
  | visited_remount s :
      visited s ->
      visited {| page := remount (page s); in_flight := in_flight s |}.

End Navigation.






(** ** 17. The legacy [HealthInsightsCard] *)

Module Card.

(** The three [useState] cells; [loading] starts [true]. *)
Record CardState : Type := mkCard {
  data : option HealthData;
  loading : bool;
  error : option string
}.

Definition initial : CardState :=
  {| data := None; loading := true; error := None |}.

Definition C (A : Type) : Type := CardState -> Completion A * CardState.

#[global] Instance C_ret : MRet C := fun A a st => (Normal a, st).

#[global] Instance C_bind : MBind C := fun A B f m st =>
  match m st with
  | (Normal a, st') => f a st'
  | (Throw e, st') => (Throw e, st')
  end.

Definition throw {A : Type} (e : Exn) : C A := fun st => (Throw e, st).

Definition await {A : Type} (q : Settled A) : C A :=
  match q with
  | Fulfilled a => mret a
  | Rejected e => throw e
  end.

Definition try_catch_finally (body : C unit) (handler : Exn -> C unit)
    (cleanup : C unit) : C unit := fun st =>
  let '(c, st1) :=
    match body st with
    | (Normal a, st') => (Normal a, st')
    | (Throw e, st') => handler e st'
    end in
  match cleanup st1 with
  | (Normal _, st2) => (c, st2)
  | (Throw e, st2) => (Throw e, st2)
  end.

Definition setData (d : option HealthData) : C unit := fun st =>
  (Normal tt, {| data := d; loading := loading st; error := error st |}).

Definition setLoading (b : bool) : C unit := fun st =>
  (Normal tt, {| data := data st; loading := b; error := error st |}).

Definition setError (e : option string) : C unit := fun st =>
  (Normal tt, {| data := data st; loading := loading st; error := e |}).

(** [m.systolic_bp != null || m.heart_rate != null || m.blood_sugar != null] *)
Definition is_valid_metric (m : MetricData) : bool :=
  not_nullish (field m "systolic_bp")
  || not_nullish (field m "heart_rate")
  || not_nullish (field m "blood_sugar").

Section Fetch.
Variable getTime : string -> option Z.

Definition validMetrics (d : HealthData) : list MetricData :=
  Array_sort (by_date getTime) (List.filter is_valid_metric (metrics d)).

(** The [catch] block also calls [console.error], which leaves the
    card's three cells alone. *)
Definition fetchData (reply : Settled Response) : C unit :=
  setLoading true ;;
  setError None ;;
  try_catch_finally
    (response ← await reply;
     if negb (ok response) then throw (Error "Failed to fetch health insights")
     else
       result ← await (json response);
       if negb (success result) then
         throw (Error (or_else (detail result) "Unknown error"))
       else
         d ← match result_data result with
             | Some d => mret d
             | None => throw (Error "Cannot read properties of undefined (reading 'metrics')")
             end;
         setData (Some (with_metrics d (validMetrics d))))
    (fun err =>
       setError (Some (or_else (Some (message err)) "Could not load health insights.")))
    (setLoading false).

(** The effect: [if (patientId) fetchData()]. *)
Definition mount (patientId : string) (reply : Settled Response) : C unit :=
  if truthy (Some patientId) then fetchData reply else mret tt.

End Fetch.

(** What the card returns, by its early [return]s. *)
Inductive View : Type :=
  | Spinner
  | Failure (msg : string)
  | NotEnoughData
  | Trajectory (d : HealthData).

Definition render (st : CardState) : View :=
  if loading st then Spinner
  else match error st with
       | Some (String c r) => Failure (String c r)
       | Some EmptyString | None =>
           match data st with
           | None => NotEnoughData
           | Some d =>
               match metrics d with
               | [] => NotEnoughData
               | _ :: _ => Trajectory d
               end
           end
       end.

End Card.

(** [{ ...d, available_metrics: keys }] *)
Definition with_keys (d : HealthData) (keys : option (list string)) : HealthData :=
  {| summary := summary d;
     profile := profile d;
     available_metrics := keys;
     metrics := metrics d;
     tips := tips d |}.

(** The sample series in date order, every record with a reading. *)
Definition sample_sorted : list MetricData :=
  [ mkMetric "2024-01-01" {[ "hr" := JsNumber 72 ]};
    mkMetric "2024-02-01" {[ "hr" := JsNumber 70 ]} ].

(** The keys the legacy card looks at. *)
Definition legacy_keys : list string := ["systolic_bp"; "heart_rate"; "blood_sugar"].

(* ===================================================================== *)
(** * Part II.  Lemmas and theorems                                       *)
(* ===================================================================== *)

(** ** 1. The sort *)

Section ArraySortFacts.
Context {A : Type}.
Variable comparefn : A -> A -> option Z.

Lemma sort_insert_perm x l : Permutation (sort_insert comparefn x l) (x :: l).
Proof.
  induction l as [|y l IH]; simpl; [reflexivity|].
  destruct (after comparefn x y); [|reflexivity].
  rewrite IH. apply perm_swap.
Qed.

Lemma Array_sort_perm l : Permutation (Array_sort comparefn l) l.
Proof.
  induction l as [|x l IH]; simpl; [constructor|].
  rewrite sort_insert_perm. now constructor.
Qed.

Lemma Array_sort_length l : length (Array_sort comparefn l) = length l.
Proof. apply Permutation_length, Array_sort_perm. Qed.

Lemma Array_sort_nil_iff l : Array_sort comparefn l = [] <-> l = [].
Proof.
  split; intros H; [|now subst].
  apply length_zero_iff_nil. rewrite <- Array_sort_length, H. reflexivity.
Qed.

(** A list whose neighbours are in order is left as it is. *)
Lemma Array_sort_fixed l : Sorted (in_order comparefn) l -> Array_sort comparefn l = l.
Proof.
  induction 1 as [|x l Hs IH Hd]; simpl; [reflexivity|].
  rewrite IH. destruct Hd as [|y l' Hxy]; simpl; [reflexivity|].
  unfold in_order in Hxy. now rewrite Hxy.
Qed.

(** Stability: elements the comparator never orders strictly keep their
    relative order. *)
Lemma sort_insert_filter (P : A -> bool) x l :
  (forall y, P x = true -> P y = true -> after comparefn x y = false) ->
  List.filter P (sort_insert comparefn x l) = List.filter P (x :: l).
Proof.
  intros HP. induction l as [|y l IH]; [reflexivity|].
  simpl. destruct (after comparefn x y) eqn:Hxy; [|reflexivity].
  simpl. rewrite IH. simpl.
  destruct (P x) eqn:Px, (P y) eqn:Py; try reflexivity.
  rewrite (HP y eq_refl Py) in Hxy. discriminate.
Qed.

Lemma Array_sort_filter (P : A -> bool) l :
  (forall x y, P x = true -> P y = true -> after comparefn x y = false) ->
  List.filter P (Array_sort comparefn l) = List.filter P l.
Proof.
  intros HP. induction l as [|x l IH]; [reflexivity|].
  cbn [Array_sort].
  rewrite sort_insert_filter by (intros; now apply HP).
  simpl. now rewrite IH.
Qed.

Section Asymmetric.
Hypothesis after_asym : forall x y, after comparefn x y = true -> after comparefn y x = false.

Lemma sort_insert_in_order x l :
  Sorted (in_order comparefn) l -> Sorted (in_order comparefn) (sort_insert comparefn x l).
Proof.
  induction 1 as [|y l Hs IH Hd]; simpl.
  - repeat constructor.
  - destruct (after comparefn x y) eqn:Hxy.
    + constructor; [exact IH|].
      destruct Hd as [|z l' Hyz]; simpl.
      * constructor. now apply after_asym.
      * destruct (after comparefn x z); constructor; [exact Hyz|now apply after_asym].
    + constructor; [now constructor|]. now constructor.
Qed.

Lemma Array_sort_in_order l : Sorted (in_order comparefn) (Array_sort comparefn l).
Proof.
  induction l as [|x l IH]; simpl; [constructor|].
  now apply sort_insert_in_order.
Qed.

Lemma Array_sort_idem l :
  Array_sort comparefn (Array_sort comparefn l) = Array_sort comparefn l.
Proof. apply Array_sort_fixed, Array_sort_in_order. Qed.

End Asymmetric.
End ArraySortFacts.

(** Sortedness carries over to a coarser relation on the elements met. *)
Lemma Sorted_weaken {A : Type} (R R' : A -> A -> Prop) (P : A -> Prop) l :
  (forall a b, P a -> P b -> R a b -> R' a b) ->
  Forall P l -> Sorted R l -> Sorted R' l.
Proof.
  intros HR HP Hs. induction Hs as [|x l Hs IH Hd]; [constructor|].
  inversion HP as [|? ? Px Pl]; subst.
  constructor; [now apply IH|].
  destruct Hd as [|y l' Hxy]; constructor.
  inversion Pl; subst. now apply HR.
Qed.

(** ** 2. The normaliser *)

Lemma not_nullish_true (v : option JsValue) :
  not_nullish v = true <-> exists x, v = Some x /\ x <> JsNull.
Proof.
  split.
  - destruct v as [[| | |]|]; simpl; intros H; try discriminate; eexists; split;
      try reflexivity; discriminate.
  - intros (x & -> & Hx). destruct x; simpl; congruence.
Qed.

Lemma some_key_has_reading (ks : list string) (m : MetricData) :
  existsb (fun k => not_nullish (field m k)) ks = true <-> has_reading ks m.
Proof.
  rewrite existsb_exists. unfold has_reading. split.
  - intros (k & Hk & Hv). apply not_nullish_true in Hv as (v & Hf & Hv). eauto.
  - intros (k & v & Hk & Hf & Hv). exists k. split; [exact Hk|].
    apply not_nullish_true. eauto.
Qed.

Section NormalizerFacts.
Variable getTime : string -> option Z.

Lemma after_by_date_asym a b :
  after (by_date getTime) a b = true -> after (by_date getTime) b a = false.
Proof.
  unfold after, by_date.
  destruct (getTime (date a)), (getTime (date b)); try discriminate.
  intros H. apply Z.ltb_lt in H. apply Z.ltb_ge. lia.
Qed.

Lemma in_order_date_le a b :
  parses getTime a -> parses getTime b ->
  in_order (by_date getTime) a b -> date_le getTime a b.
Proof.
  unfold parses, in_order, after, by_date, date_le.
  intros [ta Ha] [tb Hb]. rewrite Ha, Hb.
  intros H. apply Z.ltb_ge in H. lia.
Qed.

Lemma date_le_trans : Transitive (date_le getTime).
Proof.
  intros a b c. unfold date_le.
  destruct (getTime (date a)), (getTime (date b)), (getTime (date c));
    try tauto; lia.
Qed.

Lemma sort_by_date_sorted l :
  Forall (parses getTime) l ->
  StronglySorted (date_le getTime) (Array_sort (by_date getTime) l).
Proof.
  intros Hp. apply Sorted_StronglySorted; [exact date_le_trans|].
  apply Sorted_weaken with (R := in_order (by_date getTime)) (P := parses getTime).
  - exact in_order_date_le.
  - eapply Permutation_Forall; [|exact Hp].
    symmetry. apply Array_sort_perm.
  - apply Array_sort_in_order, after_by_date_asym.
Qed.

(** Records of one instant are never swapped. *)
Lemma sort_by_date_stable t l :
  List.filter (dated getTime t) (Array_sort (by_date getTime) l)
  = List.filter (dated getTime t) l.
Proof.
  apply Array_sort_filter. intros x y Hx Hy.
  unfold dated in Hx, Hy.
  apply bool_decide_eq_true in Hx. apply bool_decide_eq_true in Hy.
  unfold after, by_date. rewrite Hx, Hy.
  destruct t; [|reflexivity]. now rewrite Z.sub_diag.
Qed.

Lemma dated_self m : dated getTime (getTime (date m)) m = true.
Proof. unfold dated. now apply bool_decide_eq_true. Qed.

(** Two date-sorted lists with the same records, in the same order, at
    every instant are the same list. *)
Lemma sorted_groups_eq l1 : forall l2,
  StronglySorted (date_le getTime) l1 ->
  StronglySorted (date_le getTime) l2 ->
  (forall t, List.filter (dated getTime t) l1 = List.filter (dated getTime t) l2) ->
  l1 = l2.
Proof.
  induction l1 as [|x l1 IH]; intros l2 S1 S2 Hg.
  - destruct l2 as [|y l2]; [reflexivity|].
    specialize (Hg (getTime (date y))). simpl in Hg.
    rewrite dated_self in Hg. discriminate.
  - destruct l2 as [|y l2].
    { specialize (Hg (getTime (date x))). simpl in Hg.
      rewrite dated_self in Hg. discriminate. }
    apply StronglySorted_inv in S1 as [S1 F1].
    apply StronglySorted_inv in S2 as [S2 F2].
    assert (Hxy : x = y).
    { pose proof (Hg (getTime (date x))) as Gx.
      pose proof (Hg (getTime (date y))) as Gy.
      simpl in Gx, Gy. rewrite dated_self in Gx, Gy.
      destruct (dated getTime (getTime (date x)) y) eqn:Dy.
      { now injection Gx. }
      destruct (dated getTime (getTime (date y)) x) eqn:Dx.
      { now injection Gy. }
      assert (Ix : In x l2).
      { eapply proj1, filter_In. rewrite <- Gx. now left. }
      assert (Iy : In y l1).
      { eapply proj1, filter_In. rewrite Gy. now left. }
      rewrite List.Forall_forall in F1, F2.
      specialize (F1 _ Iy). specialize (F2 _ Ix).
      unfold date_le in F1, F2. unfold dated in Dy.
      apply bool_decide_eq_false in Dy.
      destruct (getTime (date x)), (getTime (date y)); try tauto.
      exfalso. apply Dy. f_equal. lia. }
    subst y. f_equal. apply IH; [exact S1|exact S2|].
    intros t. specialize (Hg t). simpl in Hg.
    destruct (dated getTime t x); [now injection Hg|exact Hg].
Qed.

(** Whatever stable sort the engine runs, on parseable dates it returns
    what [Array_sort] returns. *)
Lemma stable_sorted_unique l l' :
  Forall (parses getTime) l ->
  StronglySorted (date_le getTime) l' ->
  (forall t, List.filter (dated getTime t) l' = List.filter (dated getTime t) l) ->
  l' = Array_sort (by_date getTime) l.
Proof.
  intros Hp Hs Hg. apply sorted_groups_eq.
  - exact Hs.
  - now apply sort_by_date_sorted.
  - intros t. now rewrite sort_by_date_stable.
Qed.

Lemma is_valid_metric_keys ks m :
  ks <> [] ->
  is_valid_metric (Some ks) m = bool_decide (has_reading ks m).
Proof.
  intros Hne. unfold is_valid_metric.
  destruct ks as [|k ks]; [congruence|]. cbn [length Nat.eqb].
  destruct (existsb _ _) eqn:E; symmetry.
  - apply bool_decide_eq_true. now apply some_key_has_reading.
  - apply bool_decide_eq_false. intros H.
    apply some_key_has_reading in H. congruence.
Qed.

Lemma is_valid_metric_no_keys keys m :
  keys = None \/ keys = Some [] -> is_valid_metric keys m = true.
Proof. now intros [-> | ->]. Qed.

Lemma filter_all {A : Type} (f : A -> bool) l :
  Forall (fun x => f x = true) l -> List.filter f l = l.
Proof.
  induction 1 as [|x l Hx _ IH]; [reflexivity|].
  simpl. now rewrite Hx, IH.
Qed.

Lemma filter_kept {A : Type} (f : A -> bool) l :
  Forall (fun x => f x = true) (List.filter f l).
Proof. apply List.Forall_forall. intros x Hx. now apply filter_In in Hx. Qed.

End NormalizerFacts.

Lemma field_own m k : inherited k = false -> field m k = own_field m k.
Proof. intros H. unfold field. rewrite H. now destruct (own_field m k). Qed.

Lemma field_inherited m k :
  inherited k = true -> own_field m k = None -> not_nullish (field m k) = true.
Proof.
  intros Hi Ho. unfold field. rewrite Ho, Hi. unfold prototype_value.
  repeat destruct (String.eqb _ _); reflexivity.
Qed.

Lemma own_field_carries m k v : own_field m k = Some v <-> carries m k v.
Proof.
  unfold own_field, carries.
  destruct (String.eqb_spec k "date") as [->|Hne].
  - split; [intros [= <-]; now left|].
    intros [[_ ->]|[Hne _]]; [reflexivity|congruence].
  - split; [intros H; now right|].
    intros [[Heq _]|[_ H]]; [congruence|exact H].
Qed.

Lemma is_valid_metric_own_keys ks m :
  ks <> [] -> Forall (fun k => inherited k = false) ks ->
  is_valid_metric (Some ks) m = bool_decide (has_own_reading ks m).
Proof.
  intros Hne Hown. rewrite is_valid_metric_keys by exact Hne.
  apply bool_decide_ext. rewrite List.Forall_forall in Hown.
  unfold has_reading, has_own_reading.
  split; intros (k & v & Hk & Hf & Hv); exists k, v; (split; [exact Hk|]);
    (split; [|exact Hv]).
  - apply own_field_carries. now rewrite <- (field_own m k (Hown k Hk)).
  - rewrite (field_own m k (Hown k Hk)). now apply own_field_carries.
Qed.

Section NormalizerClaims.
Variable getTime : string -> option Z.

(** Where [available_metrics] is present, non-empty and names no property
    that every object inherits, the normalised series consists of exactly
    the records of [metrics] that themselves carry a reading (neither
    [null] nor absent) under at least one of the keys, each record as it
    came; records of one instant keep their relative order; and, the
    dates of the retained records being parseable, the series is sorted
    by date, ascending. *)
Theorem normalize_with_keys (d : HealthData) (ks : list string) :
  available_metrics d = Some ks -> ks <> [] ->
  Forall (fun k => inherited k = false) ks ->
  let informative :=
    List.filter (fun m => bool_decide (has_own_reading ks m)) (metrics d) in
  Permutation (validMetrics getTime d) informative
  /\ (forall t, List.filter (dated getTime t) (validMetrics getTime d)
               = List.filter (dated getTime t) informative)
  /\ (Forall (parses getTime) informative ->
      StronglySorted (date_le getTime) (validMetrics getTime d)).
Proof.
  intros Hk Hne Hown informative. unfold validMetrics. rewrite Hk.
  assert (Hf : List.filter (is_valid_metric (Some ks)) (metrics d) = informative).
  { apply filter_ext. intros m. now apply is_valid_metric_own_keys. }
  rewrite Hf. split; [apply Array_sort_perm|]. split.
  - intros t. apply sort_by_date_stable.
  - apply sort_by_date_sorted.
Qed.

(** An inherited key lets every record through that does not carry the
    key itself. *)
Lemma inherited_key_keeps_all (d : HealthData) (ks : list string) (k : string) :
  available_metrics d = Some ks -> In k ks -> inherited k = true ->
  Forall (fun m => own_field m k = None) (metrics d) ->
  Permutation (validMetrics getTime d) (metrics d).
Proof.
  intros Hk Hin Hi Hnone. unfold validMetrics. rewrite Array_sort_perm.
  rewrite filter_all; [reflexivity|].
  rewrite List.Forall_forall in Hnone. apply List.Forall_forall. intros m Hm.
  rewrite Hk. unfold is_valid_metric.
  destruct (Nat.eqb (length ks) 0); [reflexivity|].
  apply existsb_exists. exists k. split; [exact Hin|].
  apply field_inherited; [exact Hi|now apply Hnone].
Qed.

(** C2. Normalising the result of a normalisation, under the same
    [available_metrics], gives the same series: nothing is dropped and
    nothing moves. *)
Theorem normalize_idempotent (d : HealthData) :
  validMetrics getTime (with_metrics d (validMetrics getTime d))
  = validMetrics getTime d.
Proof.
  unfold validMetrics. cbn [with_metrics available_metrics metrics].
  rewrite filter_all.
  - apply Array_sort_idem, after_by_date_asym.
  - eapply Permutation_Forall; [|apply filter_kept].
    symmetry. apply Array_sort_perm.
Qed.

(** C3. When [available_metrics] is absent or empty, every record of
    [metrics] is kept, whatever it holds, and the records are only sorted:
    the series is the stable sort of [metrics] by date. *)
Theorem normalize_without_keys (d : HealthData) :
  available_metrics d = None \/ available_metrics d = Some [] ->
  validMetrics getTime d = Array_sort (by_date getTime) (metrics d)
  /\ Permutation (validMetrics getTime d) (metrics d)
  /\ (forall t, List.filter (dated getTime t) (validMetrics getTime d)
               = List.filter (dated getTime t) (metrics d))
  /\ (Forall (parses getTime) (metrics d) ->
      StronglySorted (date_le getTime) (validMetrics getTime d)).
Proof.
  intros Hk.
  assert (E : validMetrics getTime d = Array_sort (by_date getTime) (metrics d)).
  { unfold validMetrics. f_equal. apply filter_all.
    apply List.Forall_forall. intros m _. now apply is_valid_metric_no_keys. }
  rewrite E. split; [reflexivity|]. split; [apply Array_sort_perm|]. split.
  - intros t. apply sort_by_date_stable.
  - apply sort_by_date_sorted.
Qed.

End NormalizerClaims.

Lemma sample_metrics_parse : Forall (parses IsoDate.getTime) sample_metrics.
Proof. repeat constructor; vm_compute; eauto. Qed.

(** The worked example of the specification: the [null]-only row goes,
    the two others come out in date order. *)
Example sample_normalized :
  validMetrics IsoDate.getTime (sample_data (Some ["hr"]))
  = [ mkMetric "2024-01-01" {[ "hr" := JsNumber 72 ]};
      mkMetric "2024-02-01" {[ "hr" := JsNumber 70 ]} ].
Proof. vm_compute. reflexivity. Qed.

Lemma normalize_with_keys_witness :
  let d := sample_data (Some ["hr"]) in
  let informative :=
    List.filter (fun m => bool_decide (has_own_reading ["hr"] m)) (metrics d) in
  Permutation (validMetrics IsoDate.getTime d) informative
  /\ (forall t, List.filter (dated IsoDate.getTime t) (validMetrics IsoDate.getTime d)
               = List.filter (dated IsoDate.getTime t) informative)
  /\ StronglySorted (date_le IsoDate.getTime) (validMetrics IsoDate.getTime d).
Proof.
  assert (Hne : ["hr"] <> @nil string) by discriminate.
  assert (Hown : Forall (fun k => inherited k = false) ["hr"])
    by (repeat constructor).
  destruct (normalize_with_keys IsoDate.getTime (sample_data (Some ["hr"])) ["hr"]
              eq_refl Hne Hown) as (H1 & H2 & H3).
  split; [exact H1|]. split; [exact H2|].
  apply H3. repeat constructor; vm_compute; eauto.
Defined.

(** C1 fails on the code for a key that every object inherits.  Under
    the key list [toString], a record whose only reading is an explicit
    [null] carries no reading of its own, yet [m[key]] reads the
    inherited method and the record is kept. *)
Theorem inherited_key_keeps_unread_record :
  available_metrics inherited_key_data = Some ["toString"]
  /\ metrics inherited_key_data = [unread_record]
  /\ ~ has_own_reading ["toString"] unread_record
  /\ field unread_record "toString"
     = Some (JsObject "function toString() { [native code] }")
  /\ validMetrics IsoDate.getTime inherited_key_data = [unread_record].
Proof.
  split; [reflexivity|]. split; [reflexivity|]. split; [|split].
  - intros (k & v & Hk & Hf & Hv).
    destruct Hk as [<-|[]]. destruct Hf as [[Heq _]|[_ Hf]]; [discriminate|].
    vm_compute in Hf. discriminate.
  - vm_compute. reflexivity.
  - vm_compute. reflexivity.
Qed.

(** Without keys the [null]-only row stays. *)
Example sample_unfiltered :
  map date (validMetrics IsoDate.getTime (sample_data None))
  = ["2024-01-01"; "2024-01-01"; "2024-02-01"]
  /\ validMetrics IsoDate.getTime (sample_data (Some []))
     = validMetrics IsoDate.getTime (sample_data None).
Proof. split; vm_compute; reflexivity. Qed.

Lemma normalize_without_keys_witness :
  let d := sample_data (Some []) in
  validMetrics IsoDate.getTime d = Array_sort (by_date IsoDate.getTime) (metrics d)
  /\ Permutation (validMetrics IsoDate.getTime d) (metrics d)
  /\ (forall t, List.filter (dated IsoDate.getTime t) (validMetrics IsoDate.getTime d)
               = List.filter (dated IsoDate.getTime t) (metrics d))
  /\ StronglySorted (date_le IsoDate.getTime) (validMetrics IsoDate.getTime d).
Proof.
  destruct (normalize_without_keys IsoDate.getTime (sample_data (Some []))
              (or_intror eq_refl)) as (H1 & H2 & H3 & H4).
  split; [exact H1|]. split; [exact H2|]. split; [exact H3|].
  apply H4. exact sample_metrics_parse.
Defined.

(** ** 3. The export *)

(** Whether the capture goes through is decided by the libraries alone. *)
Lemma capture_completion env p q :
  completion (capture env) p = completion (capture env) q.
Proof.
  destruct env as [ref [[[url|e1]]|e0] [[]|e2] [[]|e3] [[]|e4] iso]; reflexivity.
Qed.

(** The continuation of an export leaves the store alone. *)
Lemma finish_export_store env p : store (exec (finish_export env) p) = store p.
Proof.
  destruct env as [ref [[[url|e1]]|e0] [[]|e2] [[]|e3] [[]|e4] iso]; reflexivity.
Qed.

(** C9. [downloadPDF] never throws and leaves the store as it found it,
    whether the capture and the assembly go through or not, and so does
    its continuation taken alone; a failure on the way ends in the alert,
    with no file saved, and a passing export saves the dated file. *)
Theorem downloadPDF_contained (env : ExportEnv) (p : Page) :
  let p' := exec (downloadPDF env) p in
  completion (downloadPDF env) p = Normal tt
  /\ store p' = store p
  /\ patientId p' = patientId p
  /\ completion (finish_export env) p = Normal tt
  /\ store (exec (finish_export env) p) = store p
  /\ (reportRef env = true ->
      isDownloading p' = false
      /\ match completion (capture env) p with
         | Throw e =>
             alerts p' = (alerts p ++ ["Failed to generate PDF report."])%list
             /\ saved p' = saved p
         | Normal _ =>
             alerts p' = alerts p
             /\ saved p' = (saved p ++ [report_name env])%list
         end).
Proof.
  destruct env as [[] [[[url|e1]]|e0] [[]|e2] [[]|e3] [[]|e4] iso];
    destruct p; cbn; repeat split; discriminate.
Qed.

Lemma downloadPDF_contained_witness :
  completion (downloadPDF sample_export_failing) sample_page = Normal tt
  /\ store (exec (downloadPDF sample_export_failing) sample_page) = store sample_page
  /\ alerts (exec (downloadPDF sample_export_failing) sample_page)
     = ["Failed to generate PDF report."]
  /\ saved (exec (downloadPDF sample_export_passing) sample_page)
     = ["Health_Insights_Report_2024-03-05.pdf"].
Proof.
  destruct (downloadPDF_contained sample_export_failing sample_page)
    as (H1 & H2 & _ & _ & _ & H3).
  destruct (downloadPDF_contained sample_export_passing sample_page)
    as (_ & _ & _ & _ & _ & H4).
  split; [exact H1|]. split; [exact H2|]. split.
  - exact (proj1 (proj2 (H3 eq_refl))).
  - exact (proj2 (proj2 (H4 eq_refl))).
Defined.

(** ** 4. The load lifecycle *)

Section LifecycleFacts.
Variable getTime : string -> option Z.

(** The [try] block throws exactly what [fetchAnalysis] reports, leaving
    the page as it was, or stores the normalised analysis and raises
    [hasLoaded]. *)
Lemma attempt_fetchAnalysis reply p :
  attempt getTime reply p =
  match fetchAnalysis reply with
  | inl e => (Throw e, p)
  | inr d =>
      (Normal tt,
       update_store (fun s =>
         {| data := Some (with_metrics d (validMetrics getTime d));
            loading := loading s; error := error s; hasLoaded := true |}) p)
  end.
Proof.
  destruct reply as [[[] [[[] det [d|]]|e]]|e]; destruct p; reflexivity.
Qed.

Lemma or_else_truthy s fallback :
  truthy (Some fallback) = true -> truthy (Some (or_else s fallback)) = true.
Proof. destruct s as [[|c r]|]; simpl; auto. Qed.

(** The store after the continuation of a load. *)
Lemma settle_store reply p :
  store (exec (settle getTime reply) p) =
  match fetchAnalysis reply with
  | inl e =>
      {| data := data (store p); loading := false;
         error := Some (or_else (Some (message e)) "Could not load health insights.");
         hasLoaded := hasLoaded (store p) |}
  | inr d =>
      {| data := Some (with_metrics d (validMetrics getTime d)); loading := false;
         error := error (store p); hasLoaded := true |}
  end.
Proof.
  unfold exec, settle, try_catch_finally. rewrite attempt_fetchAnalysis.
  destruct (fetchAnalysis reply); reflexivity.
Qed.

(** The continuation never throws. *)
Lemma settle_completes reply p :
  completion (settle getTime reply) p = Normal tt.
Proof.
  unfold completion, settle, try_catch_finally. rewrite attempt_fetchAnalysis.
  destruct (fetchAnalysis reply); reflexivity.
Qed.

(** Outside the store the continuation only writes to the console. *)
Lemma settle_frame reply p :
  patientId (exec (settle getTime reply) p) = patientId p
  /\ isDownloading (exec (settle getTime reply) p) = isDownloading p
  /\ alerts (exec (settle getTime reply) p) = alerts p
  /\ saved (exec (settle getTime reply) p) = saved p.
Proof.
  unfold exec, settle, try_catch_finally. rewrite attempt_fetchAnalysis.
  destruct (fetchAnalysis reply); repeat split; reflexivity.
Qed.

Lemma request_store p :
  store (exec request p) =
  {| data := data (store p); loading := true; error := None;
     hasLoaded := hasLoaded (store p) |}.
Proof. reflexivity. Qed.

(** A whole load is the prefix followed by the continuation. *)
Lemma generateInsights_unfold reply p :
  generateInsights getTime reply p =
  if truthy (patientId p) then settle getTime reply (exec request p)
  else (Normal tt, p).
Proof.
  unfold generateInsights, read, mbind, M_bind.
  destruct (truthy (patientId p)); reflexivity.
Qed.

(** A whole load, click to settled reply, with nothing in between. *)
Lemma generateInsights_store reply p :
  store (exec (generateInsights getTime reply) p) =
  if truthy (patientId p) then
    match fetchAnalysis reply with
    | inl e =>
        {| data := data (store p); loading := false;
           error := Some (or_else (Some (message e)) "Could not load health insights.");
           hasLoaded := hasLoaded (store p) |}
    | inr d =>
        {| data := Some (with_metrics d (validMetrics getTime d)); loading := false;
           error := None; hasLoaded := true |}
    end
  else store p.
Proof.
  unfold exec at 1. rewrite generateInsights_unfold.
  destruct (truthy (patientId p)); [|reflexivity].
  change (snd (settle getTime reply (exec request p)))
    with (exec (settle getTime reply) (exec request p)).
  rewrite settle_store. destruct (fetchAnalysis reply); reflexivity.
Qed.

Lemma generateInsights_completes reply p :
  completion (generateInsights getTime reply) p = Normal tt.
Proof.
  unfold completion. rewrite generateInsights_unfold.
  destruct (truthy (patientId p)); [|reflexivity].
  apply settle_completes.
Qed.

Lemma reachable_inv s : reachable getTime s -> session_inv s.
Proof.
  induction 1 as [|s ev s' Hr IH Hstep].
  - split; [|split; [|split]]; simpl; try discriminate; try reflexivity.
    split; [congruence|discriminate].
  - destruct IH as (Hd & Hl & He & Hle).
    destruct Hstep as [s id|s Hid|s Hid|s n reply Hn|s|s env];
      unfold session_inv; cbn [page in_flight].
    + assert (E : store (exec (fetchPatient id) (page s)) = store (page s))
        by (unfold fetchPatient; destruct (truthy id); reflexivity).
      rewrite E. auto.
    + rewrite request_store. cbn.
      split; [exact Hd|]. split; [discriminate|]. split; [discriminate|reflexivity].
    + auto.
    + rewrite settle_store. destruct (fetchAnalysis reply) as [e|d]; cbn.
      * split; [exact Hd|]. split; [reflexivity|]. split; [|discriminate].
        destruct (message e); simpl; discriminate.
      * split; [split; [reflexivity|discriminate]|].
        split; [reflexivity|]. split; [exact He|discriminate].
    + auto.
    + rewrite finish_export_store. auto.
Qed.

(** In a reachable session exactly one card guard holds, the one of the
    state the store is in. *)
Lemma cards_match_phase s :
  reachable getTime s ->
  let st := store (page s) in
  (shows_start st = true <-> phase st = Idle)
  /\ (shows_spinner st = true <-> phase st = Loading)
  /\ (shows_failure st = true <-> exists msg, phase st = InError msg)
  /\ (shows_no_data st = true <-> exists d, phase st = Empty d)
  /\ (shows_report st = true <-> exists d series, phase st = Ready d series).
Proof.
  intros Hr st. destruct (reachable_inv s Hr) as ([Hd1 Hd2] & _ & He & Hle).
  fold st in Hd1, Hd2, He, Hle.
  unfold shows_start, shows_spinner, shows_failure, shows_no_data, shows_report, phase.
  destruct st as [dt ld er hl]; cbn in *.
  destruct ld.
  { rewrite (Hle eq_refl). destruct hl; cbn;
      repeat split; try discriminate; try reflexivity;
      intros H; try discriminate H; destruct H as [? H]; try discriminate H;
      destruct H as [? H]; discriminate H. }
  destruct er as [[|c r]|]; [congruence| |].
  { destruct hl; cbn; repeat split; try discriminate; try reflexivity; eauto;
      intros H; try discriminate H; destruct H as [? H]; try discriminate H;
      destruct H as [? H]; discriminate H. }
  destruct dt as [d|].
  - rewrite (Hd1 ltac:(discriminate)). cbn.
    destruct (metrics d) as [|m ms]; cbn;
      repeat split; try discriminate; try reflexivity; eauto;
      intros H; try discriminate H; destruct H as [? H]; try discriminate H;
      destruct H as [? H]; discriminate H.
  - destruct hl; [specialize (Hd2 eq_refl); congruence|]. cbn.
    repeat split; try discriminate; try reflexivity;
      intros H; try discriminate H; destruct H as [? H]; try discriminate H;
      destruct H as [? H]; discriminate H.
Qed.

End LifecycleFacts.

Section LifecycleClaims.
Variable getTime : string -> option Z.

Lemma phase_failed s msg :
  loading s = false -> error s = Some msg -> msg <> "" -> phase s = InError msg.
Proof.
  intros Hl He Hm. unfold phase. rewrite Hl, He.
  destruct msg; [congruence|reflexivity].
Qed.

Lemma phase_loaded s d :
  loading s = false -> error s = None -> data s = Some d ->
  phase s = match metrics d with [] => Empty d | _ :: _ => Ready d (metrics d) end.
Proof. intros Hl He Hd. unfold phase. now rewrite Hl, He, Hd. Qed.

Lemma completed_has_data s : completed (phase s) -> data s <> None.
Proof.
  unfold phase. destruct (loading s); [contradiction|].
  destruct (error s) as [[|c r]|]; try contradiction;
    destruct (data s); try contradiction; discriminate.
Qed.

Lemma recover_message_nonempty e :
  or_else (Some (message e)) "Could not load health insights." <> "".
Proof. destruct (message e); discriminate. Qed.

(** C4. [hasLoaded] is false after a first load that fails (idle, loading,
    error), and true after every load that ends in ready or empty: every
    successful fetch raises it, the normalised series being empty or not;
    and so it is in every session the event loop reaches in one of these
    two states. *)
Theorem hasLoaded_after_load :
  (forall reply p msg,
      store p = initial_store ->
      phase (store (exec (generateInsights getTime reply) p)) = InError msg ->
      hasLoaded (store (exec (generateInsights getTime reply) p)) = false)
  /\ (forall reply p,
      completed (phase (store (exec (settle getTime reply) p))) ->
      hasLoaded (store (exec (settle getTime reply) p)) = true)
  /\ (forall reply p raw,
      truthy (patientId p) = true ->
      fetchAnalysis reply = inr raw ->
      let d := with_metrics raw (validMetrics getTime raw) in
      let s' := store (exec (generateInsights getTime reply) p) in
      hasLoaded s' = true
      /\ phase s' = match validMetrics getTime raw with
                    | [] => Empty d
                    | _ :: _ => Ready d (validMetrics getTime raw)
                    end)
  /\ (forall s,
      reachable getTime s ->
      completed (phase (store (page s))) ->
      hasLoaded (store (page s)) = true).
Proof.
  split; [|split; [|split]].
  - intros reply p msg Hinit Hph.
    rewrite generateInsights_store in *. rewrite Hinit in *.
    destruct (truthy (patientId p)); [|reflexivity].
    destruct (fetchAnalysis reply) as [e|d]; [reflexivity|].
    exfalso. cbn in Hph. destruct (validMetrics getTime d); discriminate.
  - intros reply p Hc. rewrite settle_store in *.
    destruct (fetchAnalysis reply) as [e|d]; [|reflexivity].
    exfalso. erewrite phase_failed in Hc;
      [exact Hc|reflexivity|reflexivity|apply recover_message_nonempty].
  - intros reply p raw Hid Hok d s'. subst s'.
    rewrite generateInsights_store, Hid, Hok. split; reflexivity.
  - intros s Hr Hc. apply (reachable_inv getTime s Hr).
    now apply completed_has_data.
Qed.

(** C5, as amended. When the endpoint answers [success = false] with a
    non-empty [detail] text [X], the load ends in the error state with
    exactly [X] as its message. *)
Theorem application_failure_detail (X : string) (rd : option HealthData) (p : Page) :
  truthy (patientId p) = true ->
  X <> "" ->
  let reply := reply_with {| success := false; detail := Some X; result_data := rd |} in
  let s' := store (exec (generateInsights getTime reply) p) in
  error s' = Some X /\ phase s' = InError X /\ loading s' = false.
Proof.
  intros Hid HX reply s'. subst s' reply.
  rewrite generateInsights_store, Hid. cbn.
  destruct X as [|c r]; [congruence|]. repeat split.
Qed.

(** An empty or missing [detail] is replaced by the generic text. *)
Lemma application_failure_generic (det : option string) (rd : option HealthData) (p : Page) :
  truthy (patientId p) = true ->
  truthy det = false ->
  let reply := reply_with {| success := false; detail := det; result_data := rd |} in
  error (store (exec (generateInsights getTime reply) p)) = Some "Unknown error".
Proof.
  intros Hid Hd reply. subst reply.
  rewrite generateInsights_store, Hid. cbn.
  destruct det as [[|c r]|]; try discriminate; reflexivity.
Qed.

(** C6. A load that fails leaves the data of an earlier load where it
    was, and [hasLoaded] too: only the error message and the loading flag
    change.  This holds of the whole load and of its continuation taken
    alone, whenever it runs. *)
Theorem failed_load_keeps_data (reply : Settled Response) (p : Page)
    (d : HealthData) (e : Exn) :
  data (store p) = Some d ->
  fetchAnalysis reply = inl e ->
  let s1 := store (exec (settle getTime reply) p) in
  let s2 := store (exec (generateInsights getTime reply) p) in
  (data s1 = Some d /\ hasLoaded s1 = hasLoaded (store p))
  /\ (data s2 = Some d /\ hasLoaded s2 = hasLoaded (store p)).
Proof.
  intros Hd He s1 s2. subst s1 s2.
  rewrite settle_store, generateInsights_store, He.
  destruct (truthy (patientId p)); cbn; auto.
Qed.

(** C10. Once a load has run to its end the loading flag is off, however
    the fetch went: after the whole load for a resolved patient, after
    the continuation taken alone, and in every reachable session with no
    fetch in flight.  The load never throws. *)
Theorem load_clears_loading (reply : Settled Response) (p : Page) :
  truthy (patientId p) = true ->
  (completion (generateInsights getTime reply) p = Normal tt
   /\ loading (store (exec (generateInsights getTime reply) p)) = false
   /\ phase (store (exec (generateInsights getTime reply) p)) <> Loading)
  /\ loading (store (exec (settle getTime reply) p)) = false
  /\ (forall s, reachable getTime s -> in_flight s = 0 ->
                loading (store (page s)) = false).
Proof.
  intros Hid. split; [|split].
  - assert (Hl : loading (store (exec (generateInsights getTime reply) p)) = false).
    { rewrite generateInsights_store, Hid.
      destruct (fetchAnalysis reply); reflexivity. }
    split; [apply generateInsights_completes|]. split; [exact Hl|].
    unfold phase. rewrite Hl.
    destruct (error _) as [[|c r]|]; try discriminate;
      destruct (data _) as [d|]; try discriminate;
      destruct (metrics d); discriminate.
  - rewrite settle_store. destruct (fetchAnalysis reply); reflexivity.
  - intros s Hr. apply (reachable_inv getTime s Hr).
Qed.

End LifecycleClaims.

(** A session reached by resolving the patient, clicking, and receiving
    the sample answer. *)
Lemma sample_session_reachable :
  reachable IsoDate.getTime
    {| page := exec (settle IsoDate.getTime sample_ok_reply)
                 (exec request (exec (fetchPatient (Some "patient-1")) initial_page));
       in_flight := 0 |}.
Proof.
  set (s1 := {| page := exec (fetchPatient (Some "patient-1")) initial_page;
                in_flight := 0 |}).
  set (s2 := {| page := exec request (page s1); in_flight := 1 |}).
  assert (R1 : reachable IsoDate.getTime s1).
  { exact (reachable_step _ _ _ _ (reachable_init _)
             (step_patient _ initial_session (Some "patient-1"))). }
  assert (R2 : reachable IsoDate.getTime s2).
  { exact (reachable_step _ _ _ _ R1 (step_click _ s1 eq_refl)). }
  exact (reachable_step _ _ _ _ R2 (step_settled _ s2 0 sample_ok_reply eq_refl)).
Qed.

Lemma hasLoaded_after_load_witness :
  hasLoaded (store (exec (generateInsights IsoDate.getTime sample_failed_reply)
                         sample_page)) = false
  /\ hasLoaded (store (exec (settle IsoDate.getTime sample_ok_reply) sample_page)) = true
  /\ hasLoaded (store (exec (generateInsights IsoDate.getTime sample_ok_reply)
                            sample_page)) = true
  /\ hasLoaded (store (exec (settle IsoDate.getTime sample_ok_reply)
                 (exec request (exec (fetchPatient (Some "patient-1")) initial_page))))
     = true.
Proof.
  destruct (hasLoaded_after_load IsoDate.getTime) as (A & B & C & D).
  split; [|split; [|split]].
  - apply (A sample_failed_reply sample_page "No records found"); reflexivity.
  - apply (B sample_ok_reply sample_page). vm_compute. exact I.
  - apply (C sample_ok_reply sample_page (sample_data (Some ["hr"])));
      reflexivity.
  - apply (D _ sample_session_reachable). vm_compute. exact I.
Defined.

(** C5 as stated fails for the empty detail text: the session reports
    the generic message, not the (empty) detail. *)
Lemma empty_detail_counterexample :
  error (store (exec (generateInsights IsoDate.getTime sample_empty_detail_reply)
                     sample_page)) = Some "Unknown error"
  /\ error (store (exec (generateInsights IsoDate.getTime sample_empty_detail_reply)
                        sample_page)) <> Some "".
Proof. split; [reflexivity|discriminate]. Qed.

Lemma application_failure_detail_witness :
  error (store (exec (generateInsights IsoDate.getTime sample_failed_reply)
                     sample_page)) = Some "No records found"
  /\ phase (store (exec (generateInsights IsoDate.getTime sample_failed_reply)
                        sample_page)) = InError "No records found"
  /\ loading (store (exec (generateInsights IsoDate.getTime sample_failed_reply)
                          sample_page)) = false.
Proof.
  assert (HX : "No records found" <> "") by discriminate.
  exact (application_failure_detail IsoDate.getTime "No records found" None
           sample_page eq_refl HX).
Defined.

Lemma failed_load_keeps_data_witness :
  let loaded := exec (generateInsights IsoDate.getTime sample_ok_reply) sample_page in
  let d := with_metrics (sample_data (Some ["hr"]))
             (validMetrics IsoDate.getTime (sample_data (Some ["hr"]))) in
  data (store loaded) = Some d
  /\ data (store (exec (generateInsights IsoDate.getTime sample_failed_reply) loaded))
     = Some d
  /\ hasLoaded (store (exec (generateInsights IsoDate.getTime sample_failed_reply) loaded))
     = true.
Proof.
  intros loaded d.
  assert (Hd : data (store loaded) = Some d) by reflexivity.
  destruct (failed_load_keeps_data IsoDate.getTime sample_failed_reply loaded d
              (Error "No records found") Hd eq_refl) as [_ [H1 H2]].
  split; [exact Hd|]. split; [exact H1|]. rewrite H2. reflexivity.
Defined.

Lemma load_clears_loading_witness :
  loading (store (exec (generateInsights IsoDate.getTime sample_ok_reply) sample_page))
  = false
  /\ loading (store (exec (generateInsights IsoDate.getTime sample_failed_reply)
                          sample_page)) = false
  /\ loading (store (exec (settle IsoDate.getTime sample_ok_reply)
               (exec request (exec (fetchPatient (Some "patient-1")) initial_page))))
     = false.
Proof.
  destruct (load_clears_loading IsoDate.getTime sample_ok_reply sample_page eq_refl)
    as [[_ [H1 _]] [_ H3]].
  destruct (load_clears_loading IsoDate.getTime sample_failed_reply sample_page eq_refl)
    as [[_ [H2 _]] _].
  split; [exact H1|]. split; [exact H2|].
  apply (H3 _ sample_session_reachable). reflexivity.
Defined.

(** ** 5. The chart *)

Lemma palette_NoDup : NoDup DYNAMIC_COLORS.
Proof. apply (bool_decide_unpack _). vm_compute. exact I. Qed.

Lemma color_at_defined i : is_Some (color_at i).
Proof.
  unfold color_at. apply lookup_lt_is_Some.
  apply Nat.mod_upper_bound. discriminate.
Qed.

Lemma color_at_inj i j :
  i < length DYNAMIC_COLORS -> j < length DYNAMIC_COLORS ->
  color_at i = color_at j -> i = j.
Proof.
  intros Hi Hj. unfold color_at. rewrite !Nat.mod_small by assumption.
  intros E. destruct (lookup_lt_is_Some_2 DYNAMIC_COLORS i Hi) as [c Hc].
  rewrite Hc in E. symmetry in E.
  exact (NoDup_lookup _ _ _ _ palette_NoDup Hc E).
Qed.

Lemma color_at_eq_iff i j :
  color_at i = color_at j
  <-> i mod length DYNAMIC_COLORS = j mod length DYNAMIC_COLORS.
Proof.
  assert (Hb : forall n, n mod length DYNAMIC_COLORS < length DYNAMIC_COLORS)
    by (intros n; apply Nat.mod_upper_bound; discriminate).
  assert (Hm : forall n, color_at (n mod length DYNAMIC_COLORS) = color_at n)
    by (intros n; unfold color_at; now rewrite Nat.Div0.mod_mod).
  split.
  - intros E. apply color_at_inj; [apply Hb|apply Hb|]. now rewrite !Hm.
  - intros E. now rewrite <- (Hm i), <- (Hm j), E.
Qed.

Lemma areas_lookup ks i : areas (Some ks) !! i = area i <$> ks !! i.
Proof. apply list_lookup_imap. Qed.

Lemma find_area_offset k : forall ks n i,
  NoDup ks -> ks !! i = Some k ->
  List.find (fun a => String.eqb (dataKey a) k) (imap (fun j => area (n + j)) ks)
  = Some (area (n + i) k).
Proof.
  induction ks as [|x ks IH]; intros n i Hnd Hi; [discriminate|].
  rewrite imap_cons. cbn [List.find dataKey area].
  apply NoDup_cons in Hnd as [Hx Hnd].
  destruct i as [|i]; simpl in Hi.
  - injection Hi as ->. rewrite String.eqb_refl. now rewrite Nat.add_0_r.
  - destruct (String.eqb_spec x k) as [->|Hne].
    + exfalso. apply Hx. apply list_elem_of_lookup. eauto.
    + rewrite (imap_ext _ (fun j => area (S n + j))).
      * rewrite (IH (S n) i Hnd Hi). now rewrite Nat.add_succ_r.
      * intros j y _. simpl. now rewrite Nat.add_succ_r.
Qed.

(** With distinct keys, a metric is drawn in the colour of its index. *)
Lemma color_of_index ks i k :
  NoDup ks -> ks !! i = Some k -> color_of (Some ks) k = color_at i.
Proof.
  intros Hnd Hi. unfold color_of, areas.
  change (imap area ks) with (imap (fun j => area (0 + j)) ks).
  now rewrite (find_area_offset k ks 0 i Hnd Hi).
Qed.

(** Two different lists of one length differ at some index. *)
Lemma differ_at (ks : list string) : forall ks',
  length ks = length ks' -> ks <> ks' ->
  exists i k k', ks !! i = Some k /\ ks' !! i = Some k' /\ k <> k'.
Proof.
  induction ks as [|x ks IH]; intros [|y ks'] Hlen Hne; try discriminate.
  - congruence.
  - destruct (string_dec x y) as [->|Hxy].
    + destruct (IH ks') as (i & k & k' & H1 & H2 & H3).
      * simpl in Hlen. lia.
      * congruence.
      * exists (S i), k, k'. auto.
    + exists 0, x, y. auto.
Qed.

(** C7, as amended. The series at index [i] is drawn in the palette
    entry [i mod 7], whatever the key is called and whatever else the
    analysis holds.  Among distinct keys, a key keeps its colour under a
    reordering exactly when its old and its new index agree modulo 7; so
    for at most seven distinct keys, every reordering that is not the
    identity changes the colour of some key. *)
Theorem palette_by_index :
  (forall ks i k,
      ks !! i = Some k ->
      exists c, DYNAMIC_COLORS !! (i mod 7) = Some c
                /\ areas (Some ks) !! i = Some (area i k)
                /\ stroke (area i k) = Some c
                /\ legend (Some ks) !! i = Some (Some c, k))
  /\ (forall ks ks' i a a',
      areas (Some ks) !! i = Some a -> areas (Some ks') !! i = Some a' ->
      stroke a = stroke a')
  /\ (forall ks ks' i j k,
      NoDup ks -> NoDup ks' -> ks !! i = Some k -> ks' !! j = Some k ->
      (color_of (Some ks) k = color_of (Some ks') k <-> i mod 7 = j mod 7))
  /\ (forall ks ks',
      NoDup ks -> length ks <= 7 ->
      Permutation ks ks' -> ks <> ks' ->
      exists k, In k ks /\ color_of (Some ks) k <> color_of (Some ks') k).
Proof.
  split; [|split; [|split]].
  - intros ks i k Hi. destruct (color_at_defined i) as [c Hc].
    exists c. split; [exact Hc|]. split; [|split].
    + now rewrite areas_lookup, Hi.
    + exact Hc.
    + unfold legend. rewrite list_lookup_imap, Hi. simpl. now rewrite Hc.
  - intros ks ks' i a a'. rewrite !areas_lookup.
    destruct (ks !! i), (ks' !! i); simpl; try discriminate.
    now intros [= <-] [= <-].
  - intros ks ks' i j k Hnd Hnd' Hi Hj.
    rewrite (color_of_index ks i k Hnd Hi), (color_of_index ks' j k Hnd' Hj).
    apply color_at_eq_iff.
  - intros ks ks' Hnd Hlen Hperm Hne.
    pose proof (Permutation_length Hperm) as Hl.
    destruct (differ_at ks ks' Hl Hne) as (i & k & k' & Hi & Hi' & Hkk).
    assert (Hin : k ∈ ks') by (rewrite <- Hperm; apply list_elem_of_lookup; eauto).
    apply list_elem_of_lookup in Hin as [j Hj].
    assert (Hij : i <> j) by (intros ->; congruence).
    exists k. split.
    + apply list_elem_of_In, list_elem_of_lookup. eauto.
    + rewrite (color_of_index ks i k Hnd Hi).
      assert (Hnd' : NoDup ks') by (now rewrite <- Hperm).
      rewrite (color_of_index ks' j k Hnd' Hj).
      intros E. apply Hij. apply color_at_inj; [| |exact E].
      * apply lookup_lt_Some in Hi. simpl. lia.
      * apply lookup_lt_Some in Hj. simpl. lia.
Qed.

Lemma palette_by_index_witness :
  stroke (area 2 "Heart Rate") = Some "#10b981"
  /\ color_of (Some eight_keys) "BMI" = color_of (Some eight_keys_swapped) "BMI"
  /\ (exists k, In k ["Heart Rate"; "Weight"]
       /\ color_of (Some ["Heart Rate"; "Weight"]) k
          <> color_of (Some ["Weight"; "Heart Rate"]) k).
Proof.
  destruct palette_by_index as (A & _ & B & C). split; [|split].
  - destruct (A ["Weight"; "SpO2"; "Heart Rate"] 2 "Heart Rate" eq_refl)
      as (c & Hc & _ & Hs & _).
    rewrite Hs, <- Hc. reflexivity.
  - apply (B eight_keys eight_keys_swapped 0 7 "BMI").
    + apply (bool_decide_unpack _). vm_compute. exact I.
    + apply (bool_decide_unpack _). vm_compute. exact I.
    + reflexivity.
    + reflexivity.
    + reflexivity.
  - apply (C ["Heart Rate"; "Weight"] ["Weight"; "Heart Rate"]).
    + apply (bool_decide_unpack _). vm_compute. exact I.
    + simpl. lia.
    + apply perm_swap.
    + discriminate.
Defined.

(** C7 as stated fails once the palette has cycled: of eight keys, the
    first and the last share a colour, and exchanging them changes the
    colour of no key. *)
Lemma reorder_counterexample :
  Permutation eight_keys eight_keys_swapped
  /\ eight_keys <> eight_keys_swapped
  /\ NoDup eight_keys
  /\ forall k, color_of (Some eight_keys) k = color_of (Some eight_keys_swapped) k.
Proof.
  split; [|split; [|split]].
  - apply (bool_decide_unpack _). vm_compute. exact I.
  - discriminate.
  - apply (bool_decide_unpack _). vm_compute. exact I.
  - intros k.
    destruct (String.eqb_spec "BMI" k) as [<-|Ha]; [reflexivity|].
    destruct (String.eqb_spec "Weight" k) as [<-|Hh]; [reflexivity|].
    apply String.eqb_neq in Ha, Hh.
    unfold color_of, eight_keys, eight_keys_swapped.
    cbn -[String.eqb]. rewrite Ha, Hh. reflexivity.
Qed.

(** C8 as stated fails on the page: with an empty key list it draws no
    series at all. *)
Lemma empty_keys_counterexample :
  areas (Some []) = [] /\ length (areas (Some [])) <> 2.
Proof. split; [reflexivity|discriminate]. Qed.

(** C8, as amended. The page draws one series per key, hence none when
    the key list is empty or absent.  The fixed pair of series (systolic
    pressure in red, heart rate in blue) is what the legacy card draws,
    which has no key list. *)
Theorem fallback_projection :
  areas None = [] /\ areas (Some []) = []
  /\ (forall ks, length (areas (Some ks)) = length ks)
  /\ map (fun a => (dataKey a, name a, stroke a)) HealthInsightsCard_areas
     = [ ("systolic_bp", "Systolic BP", Some "#ef4444");
         ("heart_rate", "Heart Rate", Some "#3b82f6") ].
Proof.
  split; [reflexivity|]. split; [reflexivity|]. split; [|reflexivity].
  intros ks. apply length_imap.
Qed.

(** ** 6. Further properties of the normaliser *)

Lemma date_le_in_order getTime a b :
  date_le getTime a b -> in_order (by_date getTime) a b.
Proof.
  unfold date_le, in_order, after, by_date.
  destruct (getTime (date a)), (getTime (date b)); try tauto.
  intros H. apply Z.ltb_ge. lia.
Qed.

Lemma filter_sublist {A : Type} (f : A -> bool) (l : list A) :
  sublist (List.filter f l) l.
Proof.
  induction l as [|x l IH]; simpl; [constructor|].
  destruct (f x); now constructor.
Qed.

Lemma filter_none {A : Type} (f : A -> bool) (l : list A) :
  Forall (fun x => f x = false) l -> List.filter f l = [].
Proof.
  induction 1 as [|x l Hx _ IH]; [reflexivity|].
  simpl. now rewrite Hx.
Qed.

Lemma validMetrics_parses getTime d :
  Forall (parses getTime) (metrics d) ->
  Forall (parses getTime)
         (List.filter (is_valid_metric (available_metrics d)) (metrics d)).
Proof.
  intros Hp. apply List.Forall_forall. intros m Hm.
  rewrite List.Forall_forall in Hp. apply Hp. now apply filter_In in Hm.
Qed.

(** X1. The dates being parseable, the normalised series is the only
    arrangement of the retained records that is sorted by date and keeps
    the records of each instant in their original order: whatever stable
    sort the engine runs, this is what it returns. *)
Theorem validMetrics_unique getTime (d : HealthData) (out : list MetricData) :
  Forall (parses getTime) (metrics d) ->
  StronglySorted (date_le getTime) out ->
  (forall t, List.filter (dated getTime t) out
             = List.filter (dated getTime t)
                 (List.filter (is_valid_metric (available_metrics d)) (metrics d))) ->
  out = validMetrics getTime d.
Proof.
  intros Hp Hs Hg. unfold validMetrics.
  apply stable_sorted_unique; [now apply validMetrics_parses|exact Hs|exact Hg].
Qed.

Lemma validMetrics_unique_witness :
  sample_sorted = validMetrics IsoDate.getTime (sample_data (Some ["hr"])).
Proof.
  apply validMetrics_unique.
  - exact sample_metrics_parse.
  - repeat constructor; vm_compute; discriminate.
  - intros t.
    change sample_sorted
      with (Array_sort (by_date IsoDate.getTime)
              (List.filter (is_valid_metric (Some ["hr"])) sample_metrics)).
    apply sort_by_date_stable.
Defined.

(** X2. A series that arrives in date order, every record passing the
    filter, is stored as it arrived. *)
Theorem sorted_series_unchanged getTime (d : HealthData) :
  Forall (fun m => is_valid_metric (available_metrics d) m = true) (metrics d) ->
  Sorted (date_le getTime) (metrics d) ->
  validMetrics getTime d = metrics d.
Proof.
  intros Hv Hs. unfold validMetrics. rewrite filter_all by exact Hv.
  apply Array_sort_fixed.
  apply Sorted_weaken with (R := date_le getTime) (P := fun _ => True).
  - intros a b _ _. apply date_le_in_order.
  - apply List.Forall_forall. intros; exact I.
  - exact Hs.
Qed.

Lemma sorted_series_unchanged_witness :
  validMetrics IsoDate.getTime
    (with_metrics (sample_data (Some ["hr"])) sample_sorted) = sample_sorted.
Proof.
  apply (sorted_series_unchanged IsoDate.getTime
           (with_metrics (sample_data (Some ["hr"])) sample_sorted)).
  - repeat constructor.
  - repeat constructor; vm_compute; discriminate.
Defined.

(** X3. When ["date"] is listed among the available metrics no record is
    dropped: every record has a date, and the date counts as a reading. *)
Theorem date_key_keeps_all getTime (d : HealthData) (ks : list string) :
  available_metrics d = Some ks -> In "date" ks ->
  Permutation (validMetrics getTime d) (metrics d).
Proof.
  intros Hk Hin. unfold validMetrics. rewrite Array_sort_perm.
  rewrite filter_all; [reflexivity|].
  apply List.Forall_forall. intros m _. rewrite Hk. unfold is_valid_metric.
  destruct (Nat.eqb (length ks) 0); [reflexivity|].
  apply existsb_exists. exists "date". split; [exact Hin|reflexivity].
Qed.

Lemma date_key_keeps_all_witness :
  Permutation (validMetrics IsoDate.getTime (sample_data (Some ["hr"; "date"])))
              sample_metrics.
Proof.
  apply (date_key_keeps_all IsoDate.getTime (sample_data (Some ["hr"; "date"]))
           ["hr"; "date"] eq_refl).
  right. left. reflexivity.
Defined.

(** X4. The series depends on the key list through its set of keys only:
    two lists with the same keys, in any order and with any repetitions,
    give the same series; and a longer list never drops a record that a
    shorter, non-empty one keeps. *)
Theorem keys_as_a_set getTime (d : HealthData) (ks1 ks2 : list string) :
  ((forall k, In k ks1 <-> In k ks2) ->
   validMetrics getTime (with_keys d (Some ks1))
   = validMetrics getTime (with_keys d (Some ks2)))
  /\ (ks1 <> [] -> incl ks1 ks2 ->
      forall m, In m (validMetrics getTime (with_keys d (Some ks1))) ->
                In m (validMetrics getTime (with_keys d (Some ks2)))).
Proof.
  split.
  - intros Hsame. unfold validMetrics. cbn [with_keys available_metrics metrics].
    f_equal. apply filter_ext. intros m.
    destruct ks1 as [|a ks1], ks2 as [|b ks2]; try reflexivity.
    + exfalso. apply (proj2 (Hsame b)). now left.
    + exfalso. apply (proj1 (Hsame a)). now left.
    + rewrite !is_valid_metric_keys by discriminate.
      apply bool_decide_ext. unfold has_reading.
      split; intros (k & v & Hk & Hv); exists k, v; (split; [|exact Hv]);
        now apply Hsame.
  - intros Hne Hincl m. unfold validMetrics.
    cbn [with_keys available_metrics metrics].
    rewrite !(Permutation_in' eq_refl (Array_sort_perm _ _)).
    rewrite !filter_In. intros [Hm Hv]. split; [exact Hm|].
    assert (Hne2 : ks2 <> []).
    { destruct ks1 as [|a ks1]; [congruence|].
      intros ->. exact (Hincl a (or_introl eq_refl)). }
    rewrite is_valid_metric_keys in * by assumption.
    apply bool_decide_eq_true. apply bool_decide_eq_true in Hv.
    destruct Hv as (k & v & Hk & Hv). exists k, v. split; [now apply Hincl|exact Hv].
Qed.

Lemma keys_as_a_set_witness :
  validMetrics IsoDate.getTime (with_keys (sample_data None) (Some ["hr"; "bp"]))
  = validMetrics IsoDate.getTime (with_keys (sample_data None) (Some ["bp"; "hr"; "bp"]))
  /\ In (mkMetric "2024-02-01" {[ "hr" := JsNumber 70 ]})
        (validMetrics IsoDate.getTime (with_keys (sample_data None) (Some ["bp"; "hr"; "bp"]))).
Proof.
  destruct (keys_as_a_set IsoDate.getTime (sample_data None)
              ["hr"; "bp"] ["bp"; "hr"; "bp"]) as [A B].
  split.
  - apply A. intros k. simpl. tauto.
  - apply B.
    + discriminate.
    + intros k. simpl. tauto.
    + vm_compute. tauto.
Defined.

(** X5. Whatever the key list, normalisation only selects and reorders:
    the series is a sub-multiset of the records received, so no record is
    invented, altered or repeated, and an empty input gives an empty
    series. *)
Theorem validMetrics_selects getTime (d : HealthData) :
  validMetrics getTime d ⊆+ metrics d
  /\ length (validMetrics getTime d) <= length (metrics d)
  /\ (forall m, In m (validMetrics getTime d) -> In m (metrics d))
  /\ (metrics d = [] -> validMetrics getTime d = []).
Proof.
  assert (H : validMetrics getTime d ⊆+ metrics d).
  { unfold validMetrics. rewrite Array_sort_perm.
    apply sublist_submseteq, filter_sublist. }
  split; [exact H|]. split; [now apply submseteq_length|]. split.
  - intros m Hm. apply list_elem_of_In. apply list_elem_of_In in Hm.
    eapply elem_of_submseteq; eassumption.
  - intros E. unfold validMetrics. now rewrite E.
Qed.

Lemma validMetrics_selects_witness :
  validMetrics IsoDate.getTime (with_metrics (sample_data None) []) = [].
Proof.
  apply (validMetrics_selects IsoDate.getTime (with_metrics (sample_data None) [])).
  reflexivity.
Defined.

(** ** 7. Further properties of the load lifecycle *)

Section LifecycleMore.
Variable getTime : string -> option Z.




(** X6. A successful load none of whose records passes the filter, an
    empty series included, ends in the empty state with the "not enough
    data" card up, never in the error state. *)
Theorem empty_series_is_empty_state (reply : Settled Response) (p : Page)
    (raw : HealthData) :
  truthy (patientId p) = true ->
  fetchAnalysis reply = inr raw ->
  Forall (fun m => is_valid_metric (available_metrics raw) m = false) (metrics raw) ->
  let s' := store (exec (generateInsights getTime reply) p) in
  phase s' = Empty (with_metrics raw [])
  /\ shows_no_data s' = true
  /\ error s' = None
  /\ hasLoaded s' = true.
Proof.
  intros Hid Hok Hnone s'. subst s'.
  rewrite generateInsights_store, Hid, Hok.
  assert (E : validMetrics getTime raw = []).
  { unfold validMetrics. now rewrite filter_none. }
  rewrite E. repeat split.
Qed.

(** X7. On a response that is not [ok] the stored message is the fixed
    text, whatever the body holds: a detail sent along with the failure
    status is never shown.  A rejected fetch shows its own message, or
    the generic text when it has none. *)
Theorem transport_failure_message (p : Page) :
  truthy (patientId p) = true ->
  (forall body,
      error (store (exec (generateInsights getTime
                            (Fulfilled {| ok := false; json := body |})) p))
      = Some "Failed to fetch health insights")
  /\ (forall e,
      error (store (exec (generateInsights getTime (Rejected e)) p))
      = Some (if truthy (Some (message e)) then message e
              else "Could not load health insights.")).
Proof.
  intros Hid. split.
  - intros body. now rewrite generateInsights_store, Hid.
  - intros e. rewrite generateInsights_store, Hid. cbn.
    destruct (message e); reflexivity.
Qed.




(** X10. The store after a successful load depends on the reply alone:
    data, flags and a cleared error are the same from whatever state the
    load started, so a retry that succeeds wipes out an earlier failure. *)
Theorem successful_load_resets (reply : Settled Response) (p q : Page)
    (raw : HealthData) :
  truthy (patientId p) = true ->
  truthy (patientId q) = true ->
  fetchAnalysis reply = inr raw ->
  store (exec (generateInsights getTime reply) p)
  = store (exec (generateInsights getTime reply) q)
  /\ shows_failure (store (exec (generateInsights getTime reply) p)) = false.
Proof.
  intros Hp Hq Hok. rewrite !generateInsights_store, Hp, Hq, Hok.
  split; reflexivity.
Qed.

(** X11. A refresh that fails takes the report down: the failure card
    alone is up, while the data of the earlier load stays in the store. *)
Theorem failed_refresh_hides_report (reply : Settled Response) (p : Page) (e : Exn) :
  truthy (patientId p) = true ->
  fetchAnalysis reply = inl e ->
  let s' := store (exec (generateInsights getTime reply) p) in
  shows_failure s' = true
  /\ shows_report s' = false
  /\ shows_no_data s' = false
  /\ shows_start s' = false
  /\ shows_spinner s' = false
  /\ data s' = data (store p).
Proof.
  intros Hid He s'. subst s'. rewrite generateInsights_store, Hid, He.
  unfold shows_failure, shows_report, shows_no_data, shows_start, shows_spinner.
  cbn. destruct (message e); cbn; rewrite ?andb_false_r; repeat split.
Qed.

End LifecycleMore.

Lemma reachable_visited getTime s : reachable getTime s -> visited getTime s.
Proof.
  induction 1 as [|s ev s' _ IH Hstep]; [constructor|].
  eapply visited_step; eassumption.
Qed.

Lemma empty_series_is_empty_state_witness :
  let raw := sample_data (Some ["Blood Sugar"]) in
  let reply := reply_with {| success := true; detail := None; result_data := Some raw |} in
  phase (store (exec (generateInsights IsoDate.getTime reply) sample_page))
  = Empty (with_metrics raw [])
  /\ shows_no_data (store (exec (generateInsights IsoDate.getTime reply) sample_page))
     = true.
Proof.
  intros raw reply.
  destruct (empty_series_is_empty_state IsoDate.getTime reply sample_page raw
              eq_refl eq_refl) as (H1 & H2 & _).
  - repeat constructor.
  - split; [exact H1|exact H2].
Defined.

Lemma transport_failure_message_witness :
  error (store (exec (generateInsights IsoDate.getTime
           (Fulfilled {| ok := false;
                         json := Fulfilled {| success := false;
                                              detail := Some "Patient not found";
                                              result_data := None |} |}))
           sample_page))
  = Some "Failed to fetch health insights"
  /\ error (store (exec (generateInsights IsoDate.getTime (Rejected (Error "")))
                        sample_page))
     = Some "Could not load health insights.".
Proof.
  destruct (transport_failure_message IsoDate.getTime sample_page eq_refl) as [A B].
  split; [apply A|apply (B (Error ""))].
Defined.




Lemma successful_load_resets_witness :
  let failed := exec (generateInsights IsoDate.getTime sample_failed_reply) sample_page in
  store (exec (generateInsights IsoDate.getTime sample_ok_reply) failed)
  = store (exec (generateInsights IsoDate.getTime sample_ok_reply) sample_page)
  /\ shows_failure (store (exec (generateInsights IsoDate.getTime sample_ok_reply) failed))
     = false.
Proof.
  intros failed.
  exact (successful_load_resets IsoDate.getTime sample_ok_reply failed sample_page
           (sample_data (Some ["hr"])) eq_refl eq_refl eq_refl).
Defined.

Lemma failed_refresh_hides_report_witness :
  let loaded := exec (generateInsights IsoDate.getTime sample_ok_reply) sample_page in
  shows_report (store loaded) = true
  /\ shows_report (store (exec (generateInsights IsoDate.getTime sample_failed_reply)
                                loaded)) = false
  /\ shows_failure (store (exec (generateInsights IsoDate.getTime sample_failed_reply)
                                 loaded)) = true
  /\ data (store (exec (generateInsights IsoDate.getTime sample_failed_reply) loaded))
     = data (store loaded).
Proof.
  intros loaded.
  destruct (failed_refresh_hides_report IsoDate.getTime sample_failed_reply loaded
              (Error "No records found") eq_refl eq_refl)
    as (H1 & H2 & _ & _ & _ & H6).
  split; [vm_compute; reflexivity|]. split; [exact H2|]. split; [exact H1|exact H6].
Defined.


(** ** 8. The tiles *)

Lemma or_else_nonempty (s : option string) (fallback : string) :
  fallback <> "" -> or_else s fallback <> "".
Proof. destruct s as [[|c r]|]; simpl; congruence. Qed.

Lemma or_text_truthy (v : option JsValue) (text : string) :
  text <> "" -> js_truthy (Some (or_text v text)) = true.
Proof.
  intros Ht. unfold or_text. destruct v as [x|].
  - destruct (js_truthy (Some x)) eqn:E; [exact E|].
    destruct text; [congruence|reflexivity].
  - destruct text; [congruence|reflexivity].
Qed.

Lemma or_text_falsy (v : option JsValue) (text : string) :
  js_truthy v = false -> or_text v text = JsString text.
Proof. unfold or_text. destruct v as [x|]; [|reflexivity]. now intros ->. Qed.

Lemma sorted_last_is_greatest {A : Type} (R : A -> A -> Prop) (l : list A) (x : A) :
  StronglySorted R (l ++ [x]) -> Forall (fun y => R y x) l.
Proof.
  induction l as [|y l IH]; simpl; intros Hs; [constructor|].
  apply StronglySorted_inv in Hs as [Hs Hy]. constructor.
  - rewrite List.Forall_forall in Hy. apply Hy. apply in_or_app. right. now left.
  - now apply IH.
Qed.

(** X12. A reading of [0] counts as a reading when the series is
    filtered, so its record is kept; but on the tile it counts as
    missing, and the sugar tile shows the stand-in text [95] instead. *)
Theorem zero_reading_kept_but_masked getTime (d : HealthData) (ks : list string)
    (m : MetricData) :
  available_metrics d = Some ks ->
  In "Blood Sugar" ks ->
  In m (metrics d) ->
  field m "Blood Sugar" = Some (JsNumber 0) ->
  In m (validMetrics getTime d)
  /\ (forall dt, latestMetric dt = Some m -> uiSugar dt = JsString "95").
Proof.
  intros Hk Hin Hm Hf. split.
  - unfold validMetrics.
    rewrite (Permutation_in' eq_refl (Array_sort_perm _ _)).
    apply filter_In. split; [exact Hm|]. rewrite Hk. unfold is_valid_metric.
    destruct (Nat.eqb (length ks) 0); [reflexivity|].
    apply existsb_exists. exists "Blood Sugar". split; [exact Hin|].
    now rewrite Hf.
  - intros dt Hl. unfold uiSugar, latest. rewrite Hl, Hf. reflexivity.
Qed.

Lemma zero_reading_kept_but_masked_witness :
  let m := mkMetric "2024-03-01" {[ "Blood Sugar" := JsNumber 0 ]} in
  let d := with_metrics (sample_data (Some ["Blood Sugar"])) [m] in
  In m (validMetrics IsoDate.getTime d)
  /\ uiSugar (Some (with_metrics d (validMetrics IsoDate.getTime d))) = JsString "95".
Proof.
  intros m d.
  destruct (zero_reading_kept_but_masked IsoDate.getTime d ["Blood Sugar"] m
              eq_refl (or_introl eq_refl) (or_introl eq_refl) eq_refl) as [A B].
  split; [exact A|]. apply B. reflexivity.
Defined.

(** X13. No tile is ever blank: whatever the store holds, each of the
    six values is a non-empty text or a truthy reading; and without a
    latest record the three readings are the stand-in texts. *)
Theorem tiles_never_blank (dt : option HealthData) :
  uiBP dt <> ""
  /\ js_truthy (Some (uiSugar dt)) = true
  /\ js_truthy (Some (uiHeartRate dt)) = true
  /\ uiWeight dt <> "" /\ uiAge dt <> "" /\ uiBloodGrp dt <> ""
  /\ (latestMetric dt = None ->
      uiBP dt = "120/80" /\ uiSugar dt = JsString "95"
      /\ uiHeartRate dt = JsString "76").
Proof.
  split; [|split; [|split; [|split; [|split; [|split]]]]].
  - unfold uiBP. destruct (_ && _); [|discriminate].
    destruct (to_text (latest dt "Systolic BP")); discriminate.
  - apply or_text_truthy. discriminate.
  - apply or_text_truthy. discriminate.
  - apply or_else_nonempty. discriminate.
  - apply or_else_nonempty. discriminate.
  - apply or_else_nonempty. discriminate.
  - intros Hn. unfold uiBP, uiSugar, uiHeartRate, latest. rewrite Hn.
    repeat split.
Qed.

Lemma tiles_never_blank_witness :
  uiBP (Some (with_metrics (sample_data None) [])) = "120/80"
  /\ uiSugar None = JsString "95".
Proof.
  destruct (tiles_never_blank (Some (with_metrics (sample_data None) [])))
    as (_ & _ & _ & _ & _ & _ & A).
  destruct (tiles_never_blank None) as (_ & _ & _ & _ & _ & _ & B).
  split; [apply A; reflexivity|apply B; reflexivity].
Defined.

(** X14. After a successful load of a series with parseable dates, the
    record the tiles read is one of the records received and no record of
    the stored series is dated later. *)
Theorem tiles_read_latest getTime (reply : Settled Response) (p : Page)
    (raw : HealthData) (m : MetricData) :
  truthy (patientId p) = true ->
  fetchAnalysis reply = inr raw ->
  Forall (parses getTime) (metrics raw) ->
  latestMetric (data (store (exec (generateInsights getTime reply) p))) = Some m ->
  In m (metrics raw)
  /\ Forall (fun m' => date_le getTime m' m) (validMetrics getTime raw).
Proof.
  intros Hid Hok Hp. rewrite generateInsights_store, Hid, Hok.
  cbn [data latestMetric with_metrics metrics]. intros Hl.
  apply last_Some in Hl as [l' Hl].
  assert (Hin : In m (metrics raw)).
  { assert (H : In m (validMetrics getTime raw))
      by (rewrite Hl; apply in_or_app; right; now left).
    unfold validMetrics in H.
    rewrite (Permutation_in' eq_refl (Array_sort_perm _ _)) in H.
    now apply filter_In in H. }
  split; [exact Hin|].
  assert (Hs : StronglySorted (date_le getTime) (validMetrics getTime raw)).
  { unfold validMetrics. apply sort_by_date_sorted. now apply validMetrics_parses. }
  rewrite Hl in *. apply Forall_app. split.
  - now apply sorted_last_is_greatest.
  - constructor; [|constructor].
    rewrite List.Forall_forall in Hp. destruct (Hp m Hin) as [t Ht].
    unfold date_le. rewrite Ht. lia.
Qed.

Lemma tiles_read_latest_witness :
  let m := mkMetric "2024-02-01" {[ "hr" := JsNumber 70 ]} in
  latestMetric (data (store (exec (generateInsights IsoDate.getTime sample_ok_reply)
                                  sample_page))) = Some m
  /\ Forall (fun m' => date_le IsoDate.getTime m' m)
            (validMetrics IsoDate.getTime (sample_data (Some ["hr"]))).
Proof.
  intros m.
  assert (Hl : latestMetric (data (store (exec (generateInsights IsoDate.getTime
                                sample_ok_reply) sample_page))) = Some m)
    by (vm_compute; reflexivity).
  split; [exact Hl|].
  exact (proj2 (tiles_read_latest IsoDate.getTime sample_ok_reply sample_page
                  (sample_data (Some ["hr"])) m eq_refl eq_refl
                  sample_metrics_parse Hl)).
Defined.

(** ** 9. The parts of the chart *)

Lemma gradient_ids (ks : list string) :
  gradient_id <$> gradients (Some ks)
  = (fun i => "color" +:+ pretty i) <$> seq 0 (length ks).
Proof.
  unfold gradients. rewrite fmap_imap.
  exact (imap_seq_0 ks (fun i => "color" +:+ pretty i)).
Qed.

(** X15. Legend, gradients and series line up index by index: the series
    at an index is filled with the gradient of that index, whose colour
    is its stroke, and the legend shows that colour beside its name.
    Gradient ids never repeat, however many keys there are. *)
Theorem chart_parts_aligned :
  (forall ks i a,
      areas (Some ks) !! i = Some a ->
      exists g, gradients (Some ks) !! i = Some g
                /\ fill a = "url(#" +:+ gradient_id g +:+ ")"
                /\ stopColor g = stroke a
                /\ legend (Some ks) !! i = Some (stroke a, name a))
  /\ (forall keys, NoDup (gradient_id <$> gradients keys))
  /\ (forall keys, length (gradients keys) = length (areas keys)
                   /\ length (legend keys) = length (areas keys)).
Proof.
  split; [|split].
  - intros ks i a. rewrite areas_lookup. unfold gradients, legend.
    rewrite !list_lookup_imap. destruct (ks !! i) as [k|]; [|discriminate].
    simpl. intros [= <-]. eexists. split; [reflexivity|]. repeat split.
  - intros [ks|]; [|constructor]. rewrite gradient_ids.
    apply NoDup_fmap_2; [|apply NoDup_seq].
    intros i j E. apply (inj (String.app "color")) in E.
    now apply (inj pretty) in E.
  - intros [ks|]; [|split; reflexivity]. unfold gradients, legend, areas.
    now rewrite !length_imap.
Qed.

Lemma chart_parts_aligned_witness :
  exists g, gradients (Some eight_keys) !! 7 = Some g
            /\ gradient_id g = "color7"
            /\ stopColor g = Some "#ef4444".
Proof.
  destruct chart_parts_aligned as (A & _ & _).
  destruct (A eight_keys 7 (area 7 "Weight") eq_refl) as (g & Hg & Hf & Hc & _).
  exists g. split; [exact Hg|]. split; [|exact Hc].
  vm_compute in Hg. injection Hg as <-. reflexivity.
Defined.

(** ** 10. The file name and the address *)

Lemma before_T_prefix (d rest : string) :
  (forall c, In c (list_ascii_of_string d) -> c <> "T"%char) ->
  before_T (d +:+ String "T" rest) = d.
Proof.
  induction d as [|c d IH]; simpl; intros Hd.
  - reflexivity.
  - destruct (Ascii.eqb_spec c "T") as [->|_].
    + exfalso. apply (Hd "T"%char); [now left|reflexivity].
    + f_equal. apply IH. intros c' Hc'. apply Hd. now right.
Qed.

(** X16. The report is named after the part of the instant's text before
    its first [T]: for an instant printed as date, [T], time, the file is
    [Health_Insights_Report_<date>.pdf], and a passing export saves
    exactly that file. *)
Theorem report_named_by_date (env : ExportEnv) (p : Page) (d rest : string) :
  (forall c, In c (list_ascii_of_string d) -> c <> "T"%char) ->
  toISOString env = d +:+ String "T" rest ->
  report_name env = "Health_Insights_Report_" +:+ d +:+ ".pdf"
  /\ (reportRef env = true ->
      completion (capture env) p = Normal tt ->
      saved (exec (downloadPDF env) p)
      = (saved p ++ ["Health_Insights_Report_" +:+ d +:+ ".pdf"])%list).
Proof.
  intros Hd Hiso.
  assert (E : report_name env = "Health_Insights_Report_" +:+ d +:+ ".pdf").
  { unfold report_name. now rewrite Hiso, before_T_prefix. }
  split; [exact E|]. intros Href Hc. rewrite <- E. clear E Hiso Hd.
  destruct env as [ref [[[url|e1]]|e0] [[]|e2] [[]|e3] [[]|e4] iso];
    cbn in Href, Hc; try discriminate; subst; reflexivity.
Qed.

Lemma report_named_by_date_witness :
  report_name sample_export_passing = "Health_Insights_Report_2024-03-05.pdf"
  /\ saved (exec (downloadPDF sample_export_passing) sample_page)
     = ["Health_Insights_Report_2024-03-05.pdf"].
Proof.
  destruct (report_named_by_date sample_export_passing sample_page
              "2024-03-05" "10:15:30.000Z") as [A B].
  - intros c Hc. simpl in Hc.
    repeat (destruct Hc as [<-|Hc]; [discriminate|]). contradiction.
  - reflexivity.
  - split; [exact A|]. apply B; reflexivity.
Defined.

(** X17. The address of the analysis determines the patient: under one
    base address two patient ids share an address only if they are the
    same id, and the base is never empty, an unset or empty setting being
    replaced by the local default. *)
Theorem analyze_url_injective (VITE_API_URL : option string) (id1 id2 : string) :
  (analyze_url VITE_API_URL id1 = analyze_url VITE_API_URL id2 -> id1 = id2)
  /\ API_BASE_URL VITE_API_URL <> ""
  /\ (truthy VITE_API_URL = false ->
      analyze_url VITE_API_URL id1 = "http://localhost:8000/analyze_health/" +:+ id1).
Proof.
  split; [|split].
  - unfold analyze_url. intros E.
    apply (inj (String.app _)) in E. now apply (inj (String.app _)) in E.
  - apply or_else_nonempty. discriminate.
  - intros Hf. unfold analyze_url, API_BASE_URL.
    destruct VITE_API_URL as [[|c r]|]; try discriminate; reflexivity.
Qed.

Lemma analyze_url_injective_witness :
  analyze_url (Some "") "patient-1" = "http://localhost:8000/analyze_health/patient-1".
Proof.
  destruct (analyze_url_injective (Some "") "patient-1" "patient-1") as (_ & _ & A).
  apply A. reflexivity.
Defined.

(** ** 11. The legacy card *)

Lemma card_filter_legacy_keys (m : MetricData) :
  Card.is_valid_metric m = is_valid_metric (Some legacy_keys) m.
Proof.
  unfold Card.is_valid_metric, is_valid_metric, legacy_keys. cbn.
  destruct (not_nullish _), (not_nullish _), (not_nullish _); reflexivity.
Qed.

(** The store of the card after a fetch. *)
Lemma card_fetch_state getTime reply st :
  Card.fetchData getTime reply st =
  (Normal tt,
   match fetchAnalysis reply with
   | inl e =>
       {| Card.data := Card.data st; Card.loading := false;
          Card.error :=
            Some (or_else (Some (message e)) "Could not load health insights.") |}
   | inr raw =>
       {| Card.data := Some (with_metrics raw (Card.validMetrics getTime raw));
          Card.loading := false; Card.error := None |}
   end).
Proof.
  destruct reply as [[[] [[[] det [d|]]|e]]|e]; destruct st; reflexivity.
Qed.

(** X18. The legacy card normalises a series exactly as the page does
    under the key list [systolic_bp], [heart_rate], [blood_sugar]. *)
Theorem card_normalises_like_page getTime (d : HealthData) :
  Card.validMetrics getTime d
  = validMetrics getTime (with_keys d (Some legacy_keys)).
Proof.
  unfold Card.validMetrics, validMetrics.
  cbn [with_keys available_metrics metrics]. f_equal.
  apply filter_ext, card_filter_legacy_keys.
Qed.

(** X19. The legacy card never looks at [diastolic_bp]: a record without
    systolic pressure, heart rate and blood sugar is dropped even when it
    carries a diastolic reading, although the page keeps such a record
    when [diastolic_bp] is among its keys. *)
Theorem card_ignores_diastolic getTime (d : HealthData) (m : MetricData) :
  In m (metrics d) ->
  not_nullish (field m "systolic_bp") = false ->
  not_nullish (field m "heart_rate") = false ->
  not_nullish (field m "blood_sugar") = false ->
  ~ In m (Card.validMetrics getTime d)
  /\ (not_nullish (field m "diastolic_bp") = true ->
      In m (validMetrics getTime (with_keys d (Some ["diastolic_bp"])))).
Proof.
  intros Hm H1 H2 H3. split.
  - unfold Card.validMetrics.
    rewrite (Permutation_in' eq_refl (Array_sort_perm _ _)), filter_In.
    intros [_ Hv]. unfold Card.is_valid_metric in Hv.
    rewrite H1, H2, H3 in Hv. discriminate.
  - intros Hd. unfold validMetrics. cbn [with_keys available_metrics metrics].
    rewrite (Permutation_in' eq_refl (Array_sort_perm _ _)), filter_In.
    split; [exact Hm|]. unfold is_valid_metric. cbn [length Nat.eqb existsb].
    now rewrite Hd.
Qed.

Lemma card_ignores_diastolic_witness :
  let m := mkMetric "2024-03-01" {[ "diastolic_bp" := JsNumber 80 ]} in
  let d := with_metrics (sample_data None) [m] in
  Card.validMetrics IsoDate.getTime d = []
  /\ In m (validMetrics IsoDate.getTime (with_keys d (Some ["diastolic_bp"]))).
Proof.
  intros m d.
  destruct (card_ignores_diastolic IsoDate.getTime d m (or_introl eq_refl)
              eq_refl eq_refl eq_refl) as [A B].
  split; [vm_compute; reflexivity|]. apply B. reflexivity.
Defined.

(** X20. A fetch of the legacy card never throws and always takes the
    spinner down.  A failure leaves the data of an earlier fetch in place
    and shows its message; a success clears the error and shows the
    trajectory, or "not enough data" when no record is retained.  With an
    empty patient id the effect fetches nothing, and the card stays on
    the spinner it starts with. *)
Theorem card_fetch_settles getTime (reply : Settled Response) (st : Card.CardState) :
  let st' := snd (Card.fetchData getTime reply st) in
  fst (Card.fetchData getTime reply st) = Normal tt
  /\ Card.loading st' = false
  /\ Card.render st' <> Card.Spinner
  /\ match fetchAnalysis reply with
     | inl e =>
         Card.data st' = Card.data st
         /\ Card.render st'
            = Card.Failure (or_else (Some (message e)) "Could not load health insights.")
     | inr raw =>
         Card.error st' = None
         /\ Card.render st'
            = match Card.validMetrics getTime raw with
              | [] => Card.NotEnoughData
              | _ :: _ =>
                  Card.Trajectory (with_metrics raw (Card.validMetrics getTime raw))
              end
     end
  /\ Card.mount getTime "" reply st = (Normal tt, st)
  /\ Card.render Card.initial = Card.Spinner.
Proof.
  intros st'. subst st'. rewrite card_fetch_state. cbn [fst snd].
  destruct (fetchAnalysis reply) as [e|raw]; cbn.
  - destruct (message e); cbn; repeat split; discriminate.
  - unfold Card.render. cbn.
    destruct (Card.validMetrics getTime raw); repeat split; discriminate.
Qed.

(** X21. Page and card tell the same story of one reply: after a load
    they hold the same error message, and the same data when the analysis
    lists the card's three keys as its available metrics. *)
Theorem card_agrees_with_page getTime (reply : Settled Response) (p : Page)
    (st : Card.CardState) :
  truthy (patientId p) = true ->
  let s' := store (exec (generateInsights getTime reply) p) in
  let st' := snd (Card.fetchData getTime reply st) in
  Card.error st' = error s'
  /\ (forall raw, fetchAnalysis reply = inr raw ->
        available_metrics raw = Some legacy_keys ->
        Card.data st' = data s').
Proof.
  intros Hid s' st'. subst s' st'.
  rewrite card_fetch_state, generateInsights_store, Hid. cbn [snd].
  destruct (fetchAnalysis reply) as [e|raw]; cbn; split; try reflexivity.
  - intros raw [=].
  - intros raw' [= <-] Hk. do 2 f_equal.
    unfold Card.validMetrics, validMetrics. rewrite Hk. f_equal.
    apply filter_ext, card_filter_legacy_keys.
Qed.

Lemma card_agrees_with_page_witness :
  let raw := sample_data (Some legacy_keys) in
  let reply := reply_with {| success := true; detail := None; result_data := Some raw |} in
  Card.error (snd (Card.fetchData IsoDate.getTime sample_failed_reply Card.initial))
  = Some "No records found"
  /\ Card.data (snd (Card.fetchData IsoDate.getTime reply Card.initial))
     = data (store (exec (generateInsights IsoDate.getTime reply) sample_page)).
Proof.
  intros raw reply.
  destruct (card_agrees_with_page IsoDate.getTime sample_failed_reply sample_page
              Card.initial eq_refl) as [A _].
  destruct (card_agrees_with_page IsoDate.getTime reply sample_page
              Card.initial eq_refl) as [_ B].
  split; [rewrite A; reflexivity|]. apply (B raw); reflexivity.
Defined.
